(** * Expense tracker API: evaluators, alert and account handlers

    A shallow embedding of the request handlers and background tasks of
    [app/routers/alerts.py], [app/routers/auth.py] and
    [app/routers/admin.py], over the tables declared in [app/models].

    - A table is the list of its rows in storage order; [query.first()] is
      [find] and [query.all()] is [filter].
    - A handler is a computation over a [World]: the committed database,
      the messages pushed through the websocket manager and the background
      tasks scheduled so far.  An exception ends the computation and keeps
      what was committed before it.
    - Money columns are [Float] in the models ([GroupExpense.amount]): an
      amount is a binary64 float, added, subtracted and compared as the
      interpreter does.  How Python prints a float is not repository code:
      the evaluators take the two printing functions they use as given. *)

From Stdlib Require Import ZArith List String Ascii Bool Lia Permutation.
From Stdlib Require Import Floats DecimalString.
Import ListNotations.

Set Warnings "-inexact-float".

Local Open Scope string_scope.
Local Open Scope list_scope.
Local Open Scope Z_scope.

(** ** Values *)

(** [datetime.date]: compared as the tuple (year, month, day). *)
Record date := mkdate { year : Z; month : Z; day : Z }.

Definition date_leb (a b : date) : bool :=
  (year a <? year b)
  || ((year a =? year b)
      && ((month a <? month b) || ((month a =? month b) && (day a <=? day b)))).

(** [date.replace(day=d)] *)
Definition replace_day (t : date) (d : Z) : date := mkdate (year t) (month t) d.

(** [calendar.isleap], [calendar.mdays] and the second component of
    [calendar.monthrange]. *)
Definition isleap (y : Z) : bool :=
  (y mod 4 =? 0) && (negb (y mod 100 =? 0) || (y mod 400 =? 0)).

Definition mdays : list Z := [0; 31; 28; 31; 30; 31; 30; 31; 31; 30; 31; 30; 31].

Definition monthrange_ndays (y m : Z) : Z :=
  nth (Z.to_nat m) mdays 0 + (if (m =? 2) && isleap y then 1 else 0).

(** An amount of money: the value of a [Float] column. *)
Definition amount := float.
Bind Scope float_scope with amount.

(** Python's [sum] over a list of floats: the items are added one after
    the other, in the order of the list, starting from 0, each addition
    rounded to binary64.  (CPython from 3.12 on carries a compensation
    term through the additions, which can change the last place of a total
    of three or more items.) *)
Definition sum (l : list amount) : amount := fold_left PrimFloat.add l 0%float.

(** Truthiness of a number: [if x:] holds when [x != 0]; a NaN is true. *)
Definition truthy (x : amount) : bool := negb (x =? 0)%float.

(** ** Tables *)

(** [app/models/user.py] *)
Module User.
Record t := mk
  { id : Z; username : string; email : string; hashed_password : string }.
End User.

(** Modelled from the spec: the Expense table (its model file is not among
    the sources): id, amount, date, description, user_id. *)
Module Expense.
Record t := mk
  { id : Z; amount : amount; date : date; description : string; user_id : Z }.
End Expense.

(** Modelled from the spec: the Budget table: id, amount_limit, start_date,
    end_date, status, user_id; [owner] is the User row [user_id] names. *)
Module Budget.
Record t := mk
  { id : Z; amount_limit : amount; start_date : date; end_date : date;
    status : string; user_id : Z }.
End Budget.

(** Modelled from the spec: the Category table: id, name, description,
    user_id. *)
Module Category.
Record t := mk { id : Z; name : string; description : string; user_id : Z }.
End Category.

(** Modelled from the spec: the CategoryBudget table: a budget scoped to a
    category; a row created without a status is "active". *)
Module CategoryBudget.
Record t := mk
  { id : Z; category_id : Z; amount_limit : amount; start_date : date;
    end_date : date; status : string; user_id : Z }.
End CategoryBudget.

(** Modelled from the spec: the Alert table: id, threshold, user_id. *)
Module Alert.
Record t := mk { id : Z; threshold : amount; user_id : Z }.
End Alert.

(** Modelled from the spec: the Notification table: id, user_id, message,
    is_read; a new notification is unread. *)
Module Notification.
Record t := mk { id : Z; user_id : Z; message : string; is_read : bool }.
End Notification.

(** Modelled from the spec: the Group table: id, name. *)
Module Group.
Record t := mk { id : Z; name : string }.
End Group.

(** Modelled from the spec: the GroupMember table: id, group_id, user_id,
    role, status. *)
Module GroupMember.
Record t := mk
  { id : Z; group_id : Z; user_id : Z; role : string; status : string }.
End GroupMember.

(** [app/models/group_expense.py]; [user] joins on [payer_id], [group] on
    [group_id], which is empty once the group is gone. *)
Module GroupExpense.
Record t := mk
  { id : Z; group_id : option Z; payer_id : Z; amount : amount;
    description : string }.
End GroupExpense.

(** Modelled from the spec: the ExpenseSplit table: id, group_expense_id,
    user_id, share_amount. *)
Module ExpenseSplit.
Record t := mk
  { id : Z; group_expense_id : Z; user_id : Z; share_amount : amount }.
End ExpenseSplit.

Record DB := mkDB
  { users : list User.t;
    expenses : list Expense.t;
    budgets : list Budget.t;
    categories : list Category.t;
    category_budgets : list CategoryBudget.t;
    alerts : list Alert.t;
    notifications : list Notification.t;
    groups : list Group.t;
    group_members : list GroupMember.t;
    group_expenses : list GroupExpense.t;
    expense_splits : list ExpenseSplit.t }.

(** The key an autoincrement primary key column gives the next row. *)
Definition next_id (ids : list Z) : Z := 1 + fold_right Z.max 0 ids.

(** ** Handlers as computations *)

(** A background task handed to [BackgroundTasks.add_task]. *)
Inductive task := CheckThresholds (user_id : Z).

Record World := mkWorld
  { db : DB;
    sent : list (Z * string);      (* manager.send_notification calls *)
    scheduled : list task }.       (* background_tasks.add_task calls *)

Inductive exn :=
| HTTPException (status_code : Z) (detail : string)
| AttributeError (attr : string)   (* attribute an object does not have *)
| TypeError (what : string)        (* subscript of None *)
| ResponseValidationError (field : string).  (* response_model not met *)

Inductive result (A : Type) :=
| Return (a : A)
| Raise (e : exn).
Arguments Return {A} a.
Arguments Raise {A} e.

Definition M (A : Type) : Type := World -> result A * World.

Definition ret {A} (a : A) : M A := fun w => (Return a, w).

Definition raise {A} (e : exn) : M A := fun w => (Raise e, w).

Definition bind {A B} (c : M A) (k : A -> M B) : M B :=
  fun w =>
    match c w with
    | (Return a, w') => k a w'
    | (Raise e, w') => (Raise e, w')
    end.

Notation "x <- c ;; k" := (bind c (fun x => k))
  (at level 61, c at next level, right associativity).
Notation "c ;;; k" := (bind c (fun _ => k))
  (at level 61, right associativity).

(** The session reads the committed database. *)
Definition query : M DB := fun w => (Return (db w), w).

(** [db.add(..)]/[db.delete(..)] followed by [db.commit()]. *)
Definition commit (f : DB -> DB) : M unit :=
  fun w => (Return tt, mkWorld (f (db w)) (sent w) (scheduled w)).

(** [manager.send_notification(user_id, message)] *)
Definition send_notification (user_id : Z) (message : string) : M unit :=
  fun w => (Return tt, mkWorld (db w) (sent w ++ [(user_id, message)]) (scheduled w)).

(** [background_tasks.add_task(..)] *)
Definition add_task (t : task) : M unit :=
  fun w => (Return tt, mkWorld (db w) (sent w) (scheduled w ++ [t])).

(** Reading attribute [name] of the result of [first()], which is [None]
    when no row matched. *)
Definition getattr {A B} (o : option A) (f : A -> B) (name : string) : M B :=
  match o with
  | Some a => ret (f a)
  | None => raise (AttributeError name)
  end.

(** [for x in l: body(x)] *)
Fixpoint for_each {A} (l : list A) (body : A -> M unit) : M unit :=
  match l with
  | [] => ret tt
  | x :: l' => body x ;;; for_each l' body
  end.

Definition HTTP_201_CREATED : Z := 201.
Definition HTTP_400_BAD_REQUEST : Z := 400.
Definition HTTP_401_UNAUTHORIZED : Z := 401.
Definition HTTP_404_NOT_FOUND : Z := 404.

(** ** app/routers/alerts.py: the background evaluators *)

(** Relationship [User.expenses]: the Expense rows whose [user_id] is the
    user's key. *)
Definition User_expenses (d : DB) (u : User.t) : list Expense.t :=
  filter (fun e => Expense.user_id e =? User.id u) (expenses d).

(** Relationship [Budget.owner]. *)
Definition Budget_owner (d : DB) (b : Budget.t) : option User.t :=
  find (fun u => User.id u =? Budget.user_id b) (users d).

(** The unread-notification lookup both evaluators run on their message. *)
Definition existing_notification (d : DB) (user_id : Z) (message : string)
  : option Notification.t :=
  find (fun n => (Notification.user_id n =? user_id)
                 && String.eqb (Notification.message n) message
                 && Bool.eqb (Notification.is_read n) false)
       (notifications d).

(** [Notification(user_id=.., message=..)], added and committed. *)
Definition new_notification (d : DB) (user_id : Z) (message : string)
  : Notification.t :=
  Notification.mk (next_id (map Notification.id (notifications d)))
                  user_id message false.

Definition add_notification (n : Notification.t) (d : DB) : DB :=
  mkDB (users d) (expenses d) (budgets d) (categories d) (category_budgets d)
       (alerts d) (notifications d ++ [n]) (groups d) (group_members d)
       (group_expenses d) (expense_splits d).

(** Lines 38-53 of [check_thresholds], the same as lines 86-97 of
    [check_budget]: persist and push the message unless an unread
    notification with the same text exists for the user. *)
Definition notify_unless_unread (user_id : Z) (message : string) : M unit :=
  d <- query ;;
  match existing_notification d user_id message with
  | Some _ => ret tt
  | None =>
      commit (add_notification (new_notification d user_id message)) ;;;
      send_notification user_id message
  end.

Section Printing.

(** [str(x)], as an f-string prints a float field, and [format(x, ".2f")]:
    built-ins of the interpreter, taken as given. *)
Variable str : amount -> string.
Variable format_2f : amount -> string.

(** The f-string of [check_thresholds]. *)
Definition threshold_text (threshold adherence : amount) : string :=
  ("Your alert threshold of " ++ str threshold
     ++ " has been exceeded by " ++ format_2f adherence)%string.

(** The f-string of [check_budget]. *)
Definition budget_text (amount_limit remaining_amount : amount) : string :=
  ("You've exceeded your budget of " ++ str amount_limit
     ++ " by " ++ str (abs remaining_amount) ++ ".")%string.

(** Lines 28-36 of [check_thresholds]: the message to emit, if any. *)
Definition threshold_message (user_id : Z) : M (option string) :=
  d <- query ;;
  let alert := find (fun a => Alert.user_id a =? user_id) (alerts d) in
  let user_expenses := filter (fun e => Expense.user_id e =? user_id) (expenses d) in
  let total_expenses := sum (map Expense.amount user_expenses) in
  threshold <- getattr alert Alert.threshold "threshold" ;;
  let adherence := (total_expenses - threshold)%float in
  if truthy adherence
  then ret (Some (threshold_text threshold adherence))
  else ret None.

(** [check_thresholds], lines 17-55: the evaluation, then the notifier. *)
Definition check_thresholds (user_id : Z) : M unit :=
  m <- threshold_message user_id ;;
  match m with
  | Some message => notify_unless_unread user_id message
  | None => ret tt
  end.

(** The query of lines 70-74 of [check_budget] (its result is not used). *)
Definition user_expenses_in_range (d : DB) (user_id : Z) (start_date end_date : date)
  : list Expense.t :=
  filter (fun e => (Expense.user_id e =? user_id)
                   && date_leb start_date (Expense.date e)
                   && date_leb (Expense.date e) end_date)
         (expenses d).

(** The comprehension of lines 76-80. *)
Definition owner_amounts_in_range (d : DB) (owner : User.t) (start_date end_date : date)
  : list amount :=
  map Expense.amount
      (filter (fun e => date_leb start_date (Expense.date e)
                        && date_leb (Expense.date e) end_date)
              (User_expenses d owner)).

(** Lines 69-85 of [check_budget]: the message to emit, if any. *)
Definition budget_message (user_id : Z) : M (option string) :=
  d <- query ;;
  match find (fun b => Budget.user_id b =? user_id) (budgets d) with
  | None => raise (AttributeError "start_date")
  | Some budget =>
      let user_expenses :=
        user_expenses_in_range d user_id
          (Budget.start_date budget) (Budget.end_date budget) in
      expenses <- getattr (Budget_owner d budget)
                    (fun owner =>
                       owner_amounts_in_range d owner
                         (Budget.start_date budget) (Budget.end_date budget))
                    "expenses" ;;
      let remaining_amount := (Budget.amount_limit budget - sum expenses)%float in
      if (remaining_amount <? 0)%float
      then ret (Some (budget_text (Budget.amount_limit budget) remaining_amount))
      else ret None
  end.

(** [check_budget], lines 58-99: the evaluation, then the notifier. *)
Definition check_budget (user_id : Z) : M unit :=
  m <- budget_message user_id ;;
  match m with
  | Some message => notify_unless_unread user_id message
  | None => ret tt
  end.

(** Starlette runs a scheduled task after the response is sent. *)
Definition run_task (t : task) : M unit :=
  match t with
  | CheckThresholds user_id => check_thresholds user_id
  end.

End Printing.

(** ** Writes *)

Definition with_users (f : list User.t -> list User.t) (d : DB) : DB :=
  mkDB (f (users d)) (expenses d) (budgets d) (categories d) (category_budgets d)
       (alerts d) (notifications d) (groups d) (group_members d)
       (group_expenses d) (expense_splits d).

Definition with_expenses (f : list Expense.t -> list Expense.t) (d : DB) : DB :=
  mkDB (users d) (f (expenses d)) (budgets d) (categories d) (category_budgets d)
       (alerts d) (notifications d) (groups d) (group_members d)
       (group_expenses d) (expense_splits d).

Definition with_budgets (f : list Budget.t -> list Budget.t) (d : DB) : DB :=
  mkDB (users d) (expenses d) (f (budgets d)) (categories d) (category_budgets d)
       (alerts d) (notifications d) (groups d) (group_members d)
       (group_expenses d) (expense_splits d).

Definition with_categories (f : list Category.t -> list Category.t) (d : DB) : DB :=
  mkDB (users d) (expenses d) (budgets d) (f (categories d)) (category_budgets d)
       (alerts d) (notifications d) (groups d) (group_members d)
       (group_expenses d) (expense_splits d).

Definition with_category_budgets
  (f : list CategoryBudget.t -> list CategoryBudget.t) (d : DB) : DB :=
  mkDB (users d) (expenses d) (budgets d) (categories d) (f (category_budgets d))
       (alerts d) (notifications d) (groups d) (group_members d)
       (group_expenses d) (expense_splits d).

Definition with_alerts (f : list Alert.t -> list Alert.t) (d : DB) : DB :=
  mkDB (users d) (expenses d) (budgets d) (categories d) (category_budgets d)
       (f (alerts d)) (notifications d) (groups d) (group_members d)
       (group_expenses d) (expense_splits d).

(** [db.delete(row)] for each row of [victims]: a row leaves its table by
    primary key. *)
Definition delete_rows {A} (key : A -> Z) (victims table : list A) : list A :=
  filter (fun r => negb (existsb (fun v => key v =? key r) victims)) table.

(** [db.delete(user)]: every relationship of [User] is declared with
    cascade "all, delete-orphan", so the rows of [user.expenses],
    [user.budgets], [user.categories], [user.alerts], [user.notifications],
    [user.group_members], [user.group_expenses] and [user.expense_splits]
    are deleted with the user; a deleted GroupExpense takes its
    [expense_splits] with it (cascade "all, delete").  Cascades that the
    models of the other child rows may declare are not among the sources
    and are not modelled. *)
Definition delete_User_cascade (u : User.t) (d : DB) : DB :=
  let uid := User.id u in
  let own_group_expenses :=
    filter (fun g => GroupExpense.payer_id g =? uid) (group_expenses d) in
  let own_splits :=
    filter (fun s => ExpenseSplit.user_id s =? uid) (expense_splits d) in
  let paid_splits :=
    filter (fun s => existsb (fun g => ExpenseSplit.group_expense_id s =? GroupExpense.id g)
                             own_group_expenses)
           (expense_splits d) in
  mkDB (delete_rows User.id [u] (users d))
       (delete_rows Expense.id
          (filter (fun e => Expense.user_id e =? uid) (expenses d)) (expenses d))
       (delete_rows Budget.id
          (filter (fun b => Budget.user_id b =? uid) (budgets d)) (budgets d))
       (delete_rows Category.id
          (filter (fun c => Category.user_id c =? uid) (categories d)) (categories d))
       (category_budgets d)
       (delete_rows Alert.id
          (filter (fun a => Alert.user_id a =? uid) (alerts d)) (alerts d))
       (delete_rows Notification.id
          (filter (fun n => Notification.user_id n =? uid) (notifications d))
          (notifications d))
       (groups d)
       (delete_rows GroupMember.id
          (filter (fun m => GroupMember.user_id m =? uid) (group_members d))
          (group_members d))
       (delete_rows GroupExpense.id own_group_expenses (group_expenses d))
       (delete_rows ExpenseSplit.id (own_splits ++ paid_splits) (expense_splits d)).

(** [db.delete(group)].  [GroupExpense.group] back-populates
    [Group.group_expenses] and [app/models/group_expense.py] declares no
    delete cascade towards it: the Group row goes and the GroupExpense rows
    of the group stay, their [group_id] emptied. *)
Definition orphaned (g : Group.t) (e : GroupExpense.t) : GroupExpense.t :=
  match GroupExpense.group_id e with
  | Some k =>
      if k =? Group.id g
      then GroupExpense.mk (GroupExpense.id e) None (GroupExpense.payer_id e)
                           (GroupExpense.amount e) (GroupExpense.description e)
      else e
  | None => e
  end.

Definition delete_Group (g : Group.t) (d : DB) : DB :=
  mkDB (users d) (expenses d) (budgets d) (categories d) (category_budgets d)
       (alerts d) (notifications d)
       (delete_rows Group.id [g] (groups d))
       (group_members d)
       (map (orphaned g) (group_expenses d))
       (expense_splits d).

(** A list is true when it has a row. *)
Definition nonempty {A} (l : list A) : bool :=
  match l with [] => false | _ :: _ => true end.

(** ** app/routers/alerts.py: the alert handlers *)

(** Modelled from the spec: the AlertCreate schema, which
    [app/schemas/alerts.py] does not declare: the threshold of the alert,
    the field [create_alert] reads. *)
Module AlertCreate.
Record t := mk { threshold : amount }.
End AlertCreate.

(** [create_alert], the handler of POST /alerts/: it returns the row it
    stored.  The filter compares the Float column as floats. *)
Definition create_alert (alert_data : AlertCreate.t) (current_user : User.t)
  : M Alert.t :=
  d <- query ;;
  let existing_alert :=
    find (fun a => (Alert.user_id a =? User.id current_user)
                   && (Alert.threshold a =? AlertCreate.threshold alert_data)%float)
         (alerts d) in
  match existing_alert with
  | Some _ =>
      raise (HTTPException HTTP_400_BAD_REQUEST
               "An alert with the same threshold already exists. Please delete it first to create a new one.")
  | None =>
      let alert := Alert.mk (next_id (map Alert.id (alerts d)))
                            (AlertCreate.threshold alert_data)
                            (User.id current_user) in
      commit (with_alerts (fun l => l ++ [alert])) ;;;
      add_task (CheckThresholds (User.id current_user)) ;;;
      ret alert
  end.

(** [app/schemas/alerts.py]: AlertResponse, with [from_attributes]. *)
Module AlertResponse.
Record t := mk { message : string; user_id : Z; id : Z }.
End AlertResponse.

(** [response_model=AlertResponse] applied to the Alert row a handler
    returned: the schema requires [message], which is not an attribute of
    the row, so the validation of the response fails. *)
Definition serialize_alert (alert : Alert.t) : M AlertResponse.t :=
  raise (ResponseValidationError "message").

(** POST /alerts/ as the route is declared: the handler, then
    [response_model=AlertResponse], answered with [status_code=201]. *)
Definition post_alert (alert_data : AlertCreate.t) (current_user : User.t)
  : M (Z * AlertResponse.t) :=
  alert <- create_alert alert_data current_user ;;
  body <- serialize_alert alert ;;
  ret (HTTP_201_CREATED, body).

(** [get_alerts], the handler of GET /alerts/. *)
Definition get_alerts (current_user : User.t) : M (list Alert.t) :=
  d <- query ;;
  let alerts := filter (fun a => Alert.user_id a =? User.id current_user) (alerts d) in
  add_task (CheckThresholds (User.id current_user)) ;;;
  ret alerts.

(** ** app/routers/admin.py *)

(** DELETE /admin/users/{user_id}, for an authenticated admin. *)
Definition delete_user (user_id : Z) : M string :=
  d <- query ;;
  let target_user := find (fun u => User.id u =? user_id) (users d) in
  let target_expenses := filter (fun e => Expense.user_id e =? user_id) (expenses d) in
  let target_budgets := filter (fun b => Budget.user_id b =? user_id) (budgets d) in
  let target_alerts := filter (fun a => Alert.user_id a =? user_id) (alerts d) in
  let target_categories := filter (fun c => Category.user_id c =? user_id) (categories d) in
  match target_user with
  | None => raise (HTTPException HTTP_404_NOT_FOUND "User not found")
  | Some target_user =>
      (if nonempty target_expenses
       then for_each target_expenses
              (fun expense => commit (with_expenses (delete_rows Expense.id [expense])))
       else ret tt) ;;;
      (if nonempty target_budgets
       then for_each target_budgets
              (fun budget => commit (with_budgets (delete_rows Budget.id [budget])))
       else ret tt) ;;;
      (if nonempty target_alerts
       then for_each target_alerts
              (fun alert => commit (with_alerts (delete_rows Alert.id [alert])))
       else ret tt) ;;;
      (if nonempty target_categories
       then for_each target_categories
              (fun category => commit (with_categories (delete_rows Category.id [category])))
       else ret tt) ;;;
      commit (delete_User_cascade target_user) ;;;
      ret ("Deleted user '" ++ User.username target_user ++ "' successfully")%string
  end.

(** ** app/routers/auth.py *)

(** A token payload: the claims dictionary. *)
Definition payload := list (string * string).

(** [dict.get(key)] *)
Fixpoint dict_get (key : string) (p : payload) : option string :=
  match p with
  | [] => None
  | (k, v) :: p' => if String.eqb k key then Some v else dict_get key p'
  end.

(** Modelled from the spec: the body of POST /auth/register,
    {username, email, password}. *)
Module UserCreate.
Record t := mk { username : string; email : string; password : string }.
End UserCreate.

(** The dictionary [register] builds for its answer.  Its last entry reads
    [new_user.created_at], which [app/models/user.py] does not declare:
    reading it raises, after the rows are committed. *)
Module RegisterResponse.
Record t := mk
  { username : string; email : string; message : string; created_at : string }.
End RegisterResponse.

(** The dictionary [get_refresh_token] returns. *)
Module RefreshResponse.
Record t := mk { access_token : string; token_type : string }.
End RefreshResponse.

Section Security.

(** [app/utils/security.py] is not among the sources: password hashing and
    token encoding are taken as given. *)
Variable hash_password : string -> string.
Variable create_access_token : payload -> string.

(** Decoding of a refresh token: its claims when the signature and expiry
    check succeed. *)
Variable decode_refresh_token : string -> option payload.

(** Modelled from the spec: [verify_refresh_token] of
    [app/utils/security.py]: "verify(token) -> claims | fails with
    InvalidToken", an invalid or expired token being an authentication
    failure, status 401. *)
Definition verify_refresh_token (token : string) : M payload :=
  match decode_refresh_token token with
  | Some claims => ret claims
  | None => raise (HTTPException HTTP_401_UNAUTHORIZED "Invalid token")
  end.

(** POST /auth/register; [today] is the value of [date.today()]. *)
Definition register (today : date) (user : UserCreate.t) : M RegisterResponse.t :=
  d <- query ;;
  match find (fun u => String.eqb (User.username u) (UserCreate.username user)) (users d) with
  | Some _ => raise (HTTPException HTTP_400_BAD_REQUEST "Username already registered")
  | None =>
  match find (fun u => String.eqb (User.email u) (UserCreate.email user)) (users d) with
  | Some _ => raise (HTTPException HTTP_400_BAD_REQUEST "Email already registered")
  | None =>
      let hashed_password := hash_password (UserCreate.password user) in
      let new_user :=
        User.mk (next_id (map User.id (users d)))
                (UserCreate.username user) (UserCreate.email user) hashed_password in
      commit (with_users (fun l => l ++ [new_user])) ;;;
      d <- query ;;
      let db_user :=
        find (fun u => String.eqb (User.username u) (UserCreate.username user)
                       && String.eqb (User.hashed_password u) hashed_password)
             (users d) in
      db_user_id <- getattr db_user User.id "id" ;;
      let new_category :=
        Category.mk (next_id (map Category.id (categories d)))
                    "Debt" "For all debts" db_user_id in
      commit (with_categories (fun l => l ++ [new_category])) ;;;
      let start_date := replace_day today 1 in
      let end_date :=
        replace_day today (monthrange_ndays (year today) (month today)) in
      d <- query ;;
      let existing_budget :=
        find (fun b => (CategoryBudget.category_id b =? Category.id new_category)
                       && (CategoryBudget.user_id b =? db_user_id)
                       && String.eqb (CategoryBudget.status b) "active"
                       && date_leb (CategoryBudget.start_date b) end_date
                       && date_leb start_date (CategoryBudget.end_date b))
             (category_budgets d) in
      match existing_budget with
      | Some _ => ret tt
      | None =>
          let new_budget :=
            CategoryBudget.mk (next_id (map CategoryBudget.id (category_budgets d)))
                              (Category.id new_category) 0%float start_date end_date
                              "active" db_user_id in
          commit (with_category_budgets (fun l => l ++ [new_budget]))
      end ;;;
      created_at <- raise (AttributeError "created_at") ;;
      ret (RegisterResponse.mk (UserCreate.username user) (UserCreate.email user)
                               "Registered successfully" created_at)
  end
  end.

(** POST /auth/user/refresh-token *)
Definition get_refresh_token (refresh_token : string) : M RefreshResponse.t :=
  payload <- verify_refresh_token refresh_token ;;
  match dict_get "sub" payload with
  | None => raise (HTTPException HTTP_401_UNAUTHORIZED "Invalid refresh token payload")
  | Some username =>
      d <- query ;;
      match find (fun u => String.eqb (User.username u) username) (users d) with
      | None => raise (HTTPException HTTP_401_UNAUTHORIZED "User not found")
      | Some _ =>
          let access_token := create_access_token [("sub", username)] in
          ret (RefreshResponse.mk access_token "bearer")
      end
  end.

End Security.

(** DELETE /auth/account, for the authenticated [user]. *)
Definition delete_account (user : User.t) : M string :=
  d <- query ;;
  let group_members :=
    filter (fun m => (GroupMember.user_id m =? User.id user)
                     && String.eqb (GroupMember.role m) "admin")
           (group_members d) in
  (if nonempty group_members
   then for_each group_members
          (fun group_member =>
             d <- query ;;
             let groups :=
               filter (fun g => Group.id g =? GroupMember.id group_member) (groups d) in
             for_each groups (fun group => commit (delete_Group group)))
   else ret tt) ;;;
  d <- query ;;
  match find (fun u => String.eqb (User.username u) (User.username user)
                       && String.eqb (User.email u) (User.email user))
             (users d) with
  | None => raise (TypeError "'NoneType' object is not subscriptable")
  | Some row =>
      let user_id := User.id row in
      match find (fun u => User.id u =? user_id) (users d) with
      | None => raise (HTTPException HTTP_404_NOT_FOUND "User not found")
      | Some target_user =>
          commit (delete_User_cascade target_user) ;;;
          ret ("Deleted account of '" ++ User.username target_user ++ "' successfully")%string
      end
  end.

(** ** Observations and sample data used in the statements *)

(** What a run that persists the message leaves behind. *)
Definition notified (w : World) (user_id : Z) (message : string) : World :=
  mkWorld (add_notification (new_notification (db w) user_id message) (db w))
          (sent w ++ [(user_id, message)])
          (scheduled w).

(** A run produces a notification when it appends a row to the table. *)
Definition produces_notification (c : M unit) (w : World) : Prop :=
  exists n, notifications (db (snd (c w))) = notifications (db w) ++ [n].

(** No row of the eight tables related to [User] names the user. *)
Definition owns_nothing (d : DB) (uid : Z) : Prop :=
  (forall e, In e (expenses d) -> Expense.user_id e <> uid)
  /\ (forall b, In b (budgets d) -> Budget.user_id b <> uid)
  /\ (forall c, In c (categories d) -> Category.user_id c <> uid)
  /\ (forall a, In a (alerts d) -> Alert.user_id a <> uid)
  /\ (forall n, In n (notifications d) -> Notification.user_id n <> uid)
  /\ (forall m, In m (group_members d) -> GroupMember.user_id m <> uid)
  /\ (forall g, In g (group_expenses d) -> GroupExpense.payer_id g <> uid)
  /\ (forall s, In s (expense_splits d) -> ExpenseSplit.user_id s <> uid).

(** The groups loop of [delete_account] writes the Group table and the
    [group_id] of GroupExpense rows; the other tables stay. *)
Definition same_but_groups (d d' : DB) : Prop :=
  users d' = users d /\ expenses d' = expenses d /\ budgets d' = budgets d
  /\ categories d' = categories d /\ category_budgets d' = category_budgets d
  /\ alerts d' = alerts d /\ notifications d' = notifications d
  /\ group_members d' = group_members d
  /\ expense_splits d' = expense_splits d.



Definition alice : User.t := User.mk 1 "alice" "a@x.com" "hash-of-pw".
Definition bob : User.t := User.mk 2 "bob" "b@x.com" "hash-of-pw2".

Definition december_budget : Budget.t :=
  Budget.mk 1 100 (mkdate 2024 12 1) (mkdate 2024 12 31) "active" 1.

Definition alice_alert : Alert.t := Alert.mk 1 100 1.

(** alice spent 100.0 and 50.0 in December and 20.0 in November; bob
    spent 30.0 in December. *)
Definition ledger : list Expense.t :=
  [ Expense.mk 1 100 (mkdate 2024 12 5) "rent" 1;
    Expense.mk 2 20 (mkdate 2024 11 30) "books" 1;
    Expense.mk 3 30 (mkdate 2024 12 6) "lunch" 2;
    Expense.mk 4 50 (mkdate 2024 12 31) "party" 1 ].

(** Printing for the examples: a float that is a whole number below 10^16
    prints as its digits and ".0" under [str], and as its digits and ".00"
    under [format(.., ".2f")].  The examples print no other float. *)
Definition whole (x : amount) : option (bool * Z) :=
  match Prim2SF x with
  | S754_zero s => Some (s, 0)
  | S754_finite s m e =>
      if 0 <=? e then Some (s, Z.pos m * 2 ^ e)
      else if Z.pos m mod 2 ^ (- e) =? 0 then Some (s, Z.pos m / 2 ^ (- e))
      else None
  | _ => None
  end.

Definition digits (n : Z) : string :=
  NilZero.string_of_uint (N.to_uint (Z.to_N n)).

Definition sample_print (fraction : string) (x : amount) : string :=
  match whole x with
  | Some (s, n) =>
      if n <? 10 ^ 16
      then ((if s then "-" else "") ++ digits n ++ fraction)%string
      else "(not printed)"
  | None => "(not printed)"
  end.

Definition sample_str : amount -> string := sample_print ".0".

Definition sample_2f : amount -> string := sample_print ".00".

Definition sample_db : DB :=
  mkDB [alice; bob] ledger [december_budget] [] [] [alice_alert] [] [] [] [] [].

Definition sample_world : World := mkWorld sample_db [] [].

(** The same state once the budget notification is stored and unread. *)
Definition warned_world : World :=
  notified sample_world 1 "You've exceeded your budget of 100.0 by 50.0.".

(** The same state once the alert notification is stored and unread. *)
Definition alerted_world : World :=
  notified sample_world 1 "Your alert threshold of 100.0 has been exceeded by 70.00".

(** Groups: bob joined first and administers the trip (membership row 1);
    alice administers the flat (membership row 2) and paid the groceries
    both of them share. *)
Definition flat : Group.t := Group.mk 1 "flat".
Definition trip : Group.t := Group.mk 2 "trip".

Definition shared_db : DB :=
  mkDB [alice; bob] ledger [december_budget]
       [Category.mk 1 "Debt" "For all debts" 1] []
       [alice_alert]
       [Notification.mk 1 1 "You've exceeded your budget of 100.0 by 50.0." true]
       [flat; trip]
       [GroupMember.mk 1 2 2 "admin" "active"; GroupMember.mk 2 1 1 "admin" "active"]
       [GroupExpense.mk 1 (Some 1) 1 90 "groceries"]
       [ExpenseSplit.mk 1 1 1 45; ExpenseSplit.mk 2 1 2 45].

Definition shared_world : World := mkWorld shared_db [] [].

(** A token service for the examples: two well-formed refresh tokens, one
    of them without a subject; an access token spells out its subject. *)
Definition sample_decode (token : string) : option payload :=
  if String.eqb token "refresh-alice" then Some [("sub", "alice")]
  else if String.eqb token "refresh-carol" then Some [("sub", "carol")]
  else if String.eqb token "refresh-anonymous" then Some [("exp", "1735689600")]
  else None.

Definition sample_encode (claims : payload) : string :=
  match dict_get "sub" claims with
  | Some username => ("access-" ++ username)%string
  | None => "access"
  end.

(** ** app/routers/alerts.py: update and delete *)

(** Modelled from the spec: the AlertUpdate schema, which
    [app/schemas/alerts.py] does not declare: the threshold, present when
    the request set it ([model_dump(exclude_unset=True)]). *)
Module AlertUpdate.
Record t := mk { threshold : option amount }.
End AlertUpdate.

(** The [setattr] loop of [update_alert] on the row it loaded. *)
Definition apply_update (alert_data : AlertUpdate.t) (alert : Alert.t) : Alert.t :=
  match AlertUpdate.threshold alert_data with
  | Some value => Alert.mk (Alert.id alert) value (Alert.user_id alert)
  | None => alert
  end.

(** The UPDATE a commit issues for a changed row: by primary key. *)
Definition update_rows {A} (key : A -> Z) (row : A) (table : list A) : list A :=
  map (fun r => if key r =? key row then row else r) table.

(** [update_alert], the handler of PUT /alerts/. *)
Definition update_alert (alert_data : AlertUpdate.t) (current_user : User.t)
  : M Alert.t :=
  d <- query ;;
  match find (fun a => Alert.user_id a =? User.id current_user) (alerts d) with
  | None => raise (HTTPException 404 "Alert not found")
  | Some alert =>
      let alert := apply_update alert_data alert in
      commit (with_alerts (update_rows Alert.id alert)) ;;;
      add_task (CheckThresholds (User.id current_user)) ;;;
      ret alert
  end.

(** DELETE /alerts/ *)
Definition delete_alert (current_user : User.t) : M string :=
  d <- query ;;
  match find (fun a => Alert.user_id a =? User.id current_user) (alerts d) with
  | None => raise (HTTPException 404 "Alert not found")
  | Some alert =>
      commit (with_alerts (delete_rows Alert.id [alert])) ;;;
      ret "Alert deleted successfully"
  end.

(** ** app/routers/auth.py and app/routers/admin.py: credentials *)

(** Modelled from the spec: the Admin table: id, username, email,
    hashed_password.  No handler of the other tables reads it, so the admin
    handlers take and return it on its own. *)
Module Admin.
Record t := mk
  { id : Z; username : string; email : string; hashed_password : string }.
End Admin.

(** Modelled from the spec: the UserLogin schema, with the fields the two
    login handlers read: [user_login] the email, the admin [login] the
    username, both the password. *)
Module UserLogin.
Record t := mk { username : string; email : string; password : string }.
End UserLogin.

(** Modelled from the spec: the AdminCreate schema: username, email,
    password and the master key. *)
Module AdminCreate.
Record t := mk
  { username : string; email : string; password : string; master_key : string }.
End AdminCreate.

(** The dictionary [user_login] returns. *)
Module LoginResponse.
Record t := mk
  { access_token : string; refresh_token : string; token_type : string;
    username : string; user_id : Z }.
End LoginResponse.

(** The dictionary [login_for_oauth_form] returns. *)
Module FormLoginResponse.
Record t := mk { access_token : string; token_type : string; username : string }.
End FormLoginResponse.

(** The dictionary the admin [register] returns. *)
Module AdminRegisterResponse.
Record t := mk { id : Z; username : string; message : string }.
End AdminRegisterResponse.

Section Credentials.

(** [app/utils/security.py] and [app/config.py] are not among the sources:
    the password check, the token codecs and the master key are taken as
    given.  [verify_access_token] answers [None] for a token it rejects, as
    the callers' [if payload is None] shows. *)
Variable verify_password : string -> string -> bool.
Variable hash_password : string -> string.
Variable create_access_token : payload -> string.
Variable create_refresh_token : payload -> string.
Variable verify_access_token : string -> option payload.
Variable MASTER_KEY : string.

(** The 401 of [get_current_user] (its WWW-Authenticate header is not part
    of [exn]). *)
Definition credentials_exception : exn :=
  HTTPException HTTP_401_UNAUTHORIZED "Could not validate credentials".

(** The dependency of every protected user route.  Its [except] clause logs
    and re-raises. *)
Definition get_current_user (token : string) : M User.t :=
  match verify_access_token token with
  | None => raise credentials_exception
  | Some payload =>
      match dict_get "sub" payload with
      | None => raise credentials_exception
      | Some username =>
          d <- query ;;
          match find (fun u => String.eqb (User.username u) username) (users d) with
          | None => raise credentials_exception
          | Some db_user => ret db_user
          end
      end
  end.

(** POST /auth/user/login *)
Definition user_login (user : UserLogin.t) : M LoginResponse.t :=
  d <- query ;;
  let db_user :=
    find (fun u => String.eqb (User.email u) (UserLogin.email user)) (users d) in
  match db_user with
  | None => raise (HTTPException HTTP_400_BAD_REQUEST "Invalid credentials")
  | Some db_user =>
      if negb (verify_password (UserLogin.password user) (User.hashed_password db_user))
      then raise (HTTPException HTTP_400_BAD_REQUEST "Invalid credentials")
      else
        let access_token := create_access_token [("sub", User.username db_user)] in
        let refresh_token := create_refresh_token [("sub", User.username db_user)] in
        ret (LoginResponse.mk access_token refresh_token "bearer"
                              (User.username db_user) (User.id db_user))
  end.

(** GET /auth/protected-route, after [get_current_user]. *)
Definition protected_route (current_user : User.t) : M string :=
  ret ("Hello, " ++ User.username current_user
         ++ "! You have access to this protected route.")%string.

(** POST /auth/login: the form's username field is looked up as an email. *)
Definition login_for_oauth_form (form_username form_password : string)
  : M FormLoginResponse.t :=
  d <- query ;;
  let db_user := find (fun u => String.eqb (User.email u) form_username) (users d) in
  match db_user with
  | None => raise (HTTPException HTTP_400_BAD_REQUEST "Invalid credentials")
  | Some db_user =>
      if negb (verify_password form_password (User.hashed_password db_user))
      then raise (HTTPException HTTP_400_BAD_REQUEST "Invalid credentials")
      else
        let access_token := create_access_token [("sub", User.username db_user)] in
        ret (FormLoginResponse.mk access_token "bearer" (User.username db_user))
  end.

(** [Depends(get_current_user)]: a protected route runs its handler on the
    user the dependency returns. *)
Definition protected {A} (token : string) (handler : User.t -> M A) : M A :=
  current_user <- get_current_user token ;;
  handler current_user.

(** [get_admin_user] of [app/routers/admin.py], on the Admin table. *)
Definition get_admin_user (token : string) (admins : list Admin.t) : result Admin.t :=
  match verify_access_token token with
  | None => Raise (HTTPException HTTP_401_UNAUTHORIZED "Could not validate credentials")
  | Some payload =>
      match dict_get "sub" payload with
      | None => Raise (HTTPException HTTP_401_UNAUTHORIZED "Invalid token payload")
      | Some username =>
          match find (fun a => String.eqb (Admin.username a) username) admins with
          | None => Raise (HTTPException 403 "Not authorized to access this resource")
          | Some db_admin => Return db_admin
          end
      end
  end.

(** POST /admin/login *)
Definition admin_login (user : UserLogin.t) (admins : list Admin.t)
  : result RefreshResponse.t :=
  match find (fun a => String.eqb (Admin.username a) (UserLogin.username user)) admins with
  | None => Raise (HTTPException HTTP_400_BAD_REQUEST "Invalid credentials")
  | Some db_admin =>
      if negb (verify_password (UserLogin.password user) (Admin.hashed_password db_admin))
      then Raise (HTTPException HTTP_400_BAD_REQUEST "Invalid credentials")
      else
        let access_token := create_access_token [("sub", Admin.username db_admin)] in
        Return (RefreshResponse.mk access_token "bearer")
  end.

(** POST /admin/register: the answer and the Admin table it leaves. *)
Definition admin_register (user : AdminCreate.t) (admins : list Admin.t)
  : result AdminRegisterResponse.t * list Admin.t :=
  if negb (String.eqb (AdminCreate.master_key user) MASTER_KEY)
  then (Raise (HTTPException HTTP_400_BAD_REQUEST "Incorrect master key"), admins)
  else
    match find (fun a => String.eqb (Admin.username a) (AdminCreate.username user))
               admins with
    | Some _ =>
        (Raise (HTTPException HTTP_400_BAD_REQUEST "Username already registered"), admins)
    | None =>
        let hashed_password := hash_password (AdminCreate.password user) in
        let new_admin :=
          Admin.mk (next_id (map Admin.id admins))
                   (AdminCreate.username user) (AdminCreate.email user)
                   hashed_password in
        (Return (AdminRegisterResponse.mk (Admin.id new_admin) (Admin.username new_admin)
                                          "Registered successfully!"),
         admins ++ [new_admin])
    end.

(** DELETE /admin/users/{user_id}: [delete_user] behind its
    [Depends(get_admin_user)]. *)
Definition admin_delete_user (token : string) (admins : list Admin.t) (user_id : Z)
  : M string :=
  match get_admin_user token admins with
  | Raise e => raise e
  | Return _ => delete_user user_id
  end.

End Credentials.

(** ** Invariants and sample services used in the statements *)

(** The primary key and the two unique columns of [users]. *)
Definition users_unique (d : DB) : Prop :=
  NoDup (map User.id (users d))
  /\ NoDup (map User.username (users d))
  /\ NoDup (map User.email (users d)).

(** No two unread notifications of a user carry the same text. *)
Definition unread_distinct (d : DB) : Prop :=
  NoDup (map (fun n => (Notification.user_id n, Notification.message n))
             (filter (fun n => Bool.eqb (Notification.is_read n) false)
                     (notifications d))).

(** No two alerts of a user carry the same threshold. *)
Definition thresholds_distinct (d : DB) : Prop :=
  NoDup (map (fun a => (Alert.user_id a, Alert.threshold a)) (alerts d)).

(** A password service for the examples. *)
Definition sample_hash (password : string) : string := ("hash-of-" ++ password)%string.

Definition sample_verify (password hashed : string) : bool :=
  String.eqb (sample_hash password) hashed.

(** An access-token codec for the examples: a token is "access-" and the
    subject. *)
Definition sample_access_decode (token : string) : option payload :=
  if String.prefix "access-" token
  then Some [("sub", String.substring 7 (String.length token - 7) token)]
  else None.



(** The membership rows [delete_account] loops over. *)
Definition admin_memberships (uid : Z) (d : DB) : list GroupMember.t :=
  filter (fun m => (GroupMember.user_id m =? uid)
                   && String.eqb (GroupMember.role m) "admin")
         (group_members d).

(** The state [delete_user] reaches before it deletes the User row. *)
Definition children_deleted (uid : Z) (d : DB) : DB :=
  with_categories
    (delete_rows Category.id (filter (fun c => Category.user_id c =? uid) (categories d)))
    (with_alerts
       (delete_rows Alert.id (filter (fun a => Alert.user_id a =? uid) (alerts d)))
       (with_budgets
          (delete_rows Budget.id (filter (fun b => Budget.user_id b =? uid) (budgets d)))
          (with_expenses
             (delete_rows Expense.id
                (filter (fun e => Expense.user_id e =? uid) (expenses d)))
             d))).

(** alice with a second alert, at 250.0. *)
Definition two_alerts_world : World :=
  mkWorld (with_alerts (fun l => l ++ [Alert.mk 2 250 1]) sample_db) [] [].

(** The sample state with one more expense of bob. *)
Definition busier_world : World :=
  mkWorld (with_expenses
             (fun l => Expense.mk 5 999 (mkdate 2024 12 24) "gifts" 2 :: l) sample_db)
          [] [].


(** A tea at 0.1 and a bun at 0.2, against a budget of 0.3 and against an
    alert at 0.3. *)
Definition tea_and_bun : list Expense.t :=
  [ Expense.mk 1 0.1 (mkdate 2024 12 5) "tea" 1;
    Expense.mk 2 0.2 (mkdate 2024 12 6) "bun" 1 ].

Definition small_budget_world : World :=
  mkWorld
    (mkDB [alice] tea_and_bun
          [Budget.mk 1 0.3 (mkdate 2024 12 1) (mkdate 2024 12 31) "active" 1]
          [] [] [] [] [] [] [] [])
    [] [].

Definition small_alert_world : World :=
  mkWorld (mkDB [alice] tea_and_bun [] [] [] [Alert.mk 1 0.3 1] [] [] [] [] []) [] [].

(** An admin for the examples. *)
Definition root : Admin.t := Admin.mk 1 "root" "ops@x.com" "hash-of-secret".

(** * Properties *)

(** ** Lists, sums and lookups *)

Lemma find_none_iff {A} (p : A -> bool) (l : list A) :
  find p l = None <-> (forall x, In x l -> p x = false).
Proof.
  split.
  - intros H x Hx. exact (find_none p l H x Hx).
  - induction l as [|a l IH]; intros H; simpl.
    + reflexivity.
    + rewrite (H a (or_introl eq_refl)). apply IH.
      intros x Hx. apply H. right. exact Hx.
Qed.

Lemma find_snoc {A} (p : A -> bool) (l : list A) (x : A) :
  find p (l ++ [x]) =
  match find p l with
  | Some y => Some y
  | None => if p x then Some x else None
  end.
Proof.
  induction l as [|a l IH]; simpl.
  - reflexivity.
  - destruct (p a); [reflexivity | exact IH].
Qed.

Lemma filter_filter {A} (p q : A -> bool) (l : list A) :
  filter p (filter q l) = filter (fun x => q x && p x) l.
Proof.
  induction l as [|a l IH]; simpl.
  - reflexivity.
  - destruct (q a); simpl; [destruct (p a)|]; rewrite IH; reflexivity.
Qed.

Lemma snoc_neq_self {A} (l : list A) (x : A) : l ++ [x] <> l.
Proof.
  intros H. apply (f_equal (@List.length A)) in H.
  rewrite List.length_app in H. simpl in H. lia.
Qed.

(** A float below zero, or above it, is not equal to zero. *)
Lemma negative_is_nonzero (x : float) :
  (x <? 0)%float = true -> (x =? 0)%float = false.
Proof.
  rewrite ltb_spec, eqb_spec. change (Prim2SF 0) with (S754_zero false).
  unfold SFltb, SFeqb.
  destruct (SFcompare (Prim2SF x) (S754_zero false)) as [[]|]; congruence.
Qed.

Lemma positive_is_nonzero (x : float) :
  (0 <? x)%float = true -> (x =? 0)%float = false.
Proof.
  rewrite ltb_spec, eqb_spec. change (Prim2SF 0) with (S754_zero false).
  unfold SFltb, SFeqb.
  destruct (Prim2SF x) as [s|s| |s m e]; simpl; try destruct s; congruence.
Qed.

(** ** The evaluators read, the notifier writes *)

Ltac run :=
  unfold bind, ret, raise, query, commit, send_notification, add_task, getattr;
  simpl.

Lemma threshold_message_reads (str format_2f : amount -> string) (user_id : Z) (w : World) :
  snd (threshold_message str format_2f user_id w) = w.
Proof.
  unfold threshold_message. run.
  destruct (find _ (alerts (db w))); simpl; [|reflexivity].
  destruct (truthy _); reflexivity.
Qed.

Lemma budget_message_reads (str : amount -> string) (user_id : Z) (w : World) :
  snd (budget_message str user_id w) = w.
Proof.
  unfold budget_message. run.
  destruct (find _ (budgets (db w))) as [b|]; simpl; [|reflexivity].
  destruct (Budget_owner (db w) b); simpl; [|reflexivity].
  destruct (_ <? _)%float; reflexivity.
Qed.

Lemma threshold_message_frame (str format_2f : amount -> string) (user_id : Z) (w1 w2 : World) :
  alerts (db w1) = alerts (db w2) ->
  expenses (db w1) = expenses (db w2) ->
  fst (threshold_message str format_2f user_id w1)
  = fst (threshold_message str format_2f user_id w2).
Proof.
  intros Ha He. unfold threshold_message. run. rewrite Ha, He.
  destruct (find _ (alerts (db w2))); simpl; [|reflexivity].
  destruct (truthy _); reflexivity.
Qed.

Lemma budget_message_frame (str : amount -> string) (user_id : Z) (w1 w2 : World) :
  budgets (db w1) = budgets (db w2) ->
  users (db w1) = users (db w2) ->
  expenses (db w1) = expenses (db w2) ->
  fst (budget_message str user_id w1) = fst (budget_message str user_id w2).
Proof.
  intros Hb Hu He. unfold budget_message. run. rewrite Hb.
  destruct (find _ (budgets (db w2))) as [b|]; simpl; [|reflexivity].
  unfold Budget_owner, owner_amounts_in_range, User_expenses. rewrite Hu, He.
  destruct (find _ (users (db w2))); simpl; [|reflexivity].
  destruct (_ <? _)%float; reflexivity.
Qed.

Lemma notify_fresh (w : World) (user_id : Z) (message : string) :
  existing_notification (db w) user_id message = None ->
  notify_unless_unread user_id message w = (Return tt, notified w user_id message).
Proof.
  intros H. unfold notify_unless_unread. run. rewrite H. reflexivity.
Qed.

Lemma notify_duplicate (w : World) (user_id : Z) (message : string) :
  existing_notification (db w) user_id message <> None ->
  notify_unless_unread user_id message w = (Return tt, w).
Proof.
  intros H. unfold notify_unless_unread. run.
  destruct (existing_notification (db w) user_id message); [reflexivity | congruence].
Qed.

Lemma notified_has_unread (w : World) (user_id : Z) (message : string) :
  existing_notification (db (notified w user_id message)) user_id message <> None.
Proof.
  unfold existing_notification, notified. simpl. rewrite find_snoc.
  destruct (find _ (notifications (db w))); [discriminate|].
  simpl. rewrite Z.eqb_refl, String.eqb_refl. discriminate.
Qed.

Lemma notify_twice (w : World) (user_id : Z) (message : string) :
  let w1 := snd (notify_unless_unread user_id message w) in
  notify_unless_unread user_id message w1 = (Return tt, w1).
Proof.
  simpl.
  destruct (existing_notification (db w) user_id message) as [n|] eqn:E.
  - rewrite (notify_duplicate w) by congruence. simpl.
    apply notify_duplicate. congruence.
  - rewrite (notify_fresh w _ _ E). simpl.
    apply notify_duplicate, notified_has_unread.
Qed.

Lemma notify_keeps_tables (w : World) (user_id : Z) (message : string) :
  let w1 := snd (notify_unless_unread user_id message w) in
  users (db w1) = users (db w) /\ expenses (db w1) = expenses (db w)
  /\ budgets (db w1) = budgets (db w) /\ alerts (db w1) = alerts (db w).
Proof.
  simpl. unfold notify_unless_unread. run.
  destruct (existing_notification (db w) user_id message); simpl; auto.
Qed.

Lemma existing_notification_none (d : DB) (user_id : Z) (message : string) :
  existing_notification d user_id message = None <->
  (forall n, In n (notifications d) ->
     ~ (Notification.user_id n = user_id
        /\ Notification.message n = message
        /\ Notification.is_read n = false)).
Proof.
  unfold existing_notification. rewrite find_none_iff. split.
  - intros H n Hn (Hu & Hm & Hr). specialize (H n Hn).
    rewrite Hu, Hm, Hr, Z.eqb_refl, String.eqb_refl in H. discriminate.
  - intros H n Hn. specialize (H n Hn).
    destruct (Z.eqb_spec (Notification.user_id n) user_id) as [Hu|]; [|reflexivity].
    destruct (String.eqb_spec (Notification.message n) message) as [Hm|]; [|reflexivity].
    destruct (Notification.is_read n) eqn:Hr; [reflexivity|].
    exfalso. apply H. auto.
Qed.

Lemma owner_amounts_are_query (d : DB) (user_id : Z) (owner : User.t) (s e : date) :
  User.id owner = user_id ->
  owner_amounts_in_range d owner s e
  = map Expense.amount (user_expenses_in_range d user_id s e).
Proof.
  intros <-. unfold owner_amounts_in_range, user_expenses_in_range, User_expenses.
  rewrite filter_filter. f_equal. apply filter_ext.
  intros x. rewrite andb_assoc. reflexivity.
Qed.

Lemma first_budget_owner (d : DB) (user_id : Z) (budget : Budget.t) (owner : User.t) :
  find (fun b => Budget.user_id b =? user_id) (budgets d) = Some budget ->
  Budget_owner d budget = Some owner ->
  User.id owner = user_id.
Proof.
  intros Hb Ho. apply find_some in Hb. apply find_some in Ho. lia.
Qed.

Lemma evaluate_twice (msg : M (option string)) (user_id : Z) (w : World) :
  (forall w', snd (msg w') = w') ->
  (forall m, fst (msg (snd (notify_unless_unread user_id m w))) = fst (msg w)) ->
  let run :=
    (m <- msg ;;
     match m with
     | Some message => notify_unless_unread user_id message
     | None => ret tt
     end) in
  let w1 := snd (run w) in
  snd (run w1) = w1 /\ (List.length (notifications (db w1)) <= 1 + List.length (notifications (db w)))%nat.
Proof.
  intros Hreads Hframe. cbv zeta. unfold bind.
  destruct (msg w) as [r w'] eqn:E.
  assert (w' = w) by (rewrite <- (Hreads w), E; reflexivity). subst w'.
  destruct r as [[m|]|e]; simpl.
  - specialize (Hframe m). pose proof (notify_twice w user_id m) as Ht.
    cbv zeta in Ht.
    set (w1 := snd (notify_unless_unread user_id m w)) in *.
    destruct (msg w1) as [r1 w1'] eqn:E1.
    assert (w1' = w1) by (rewrite <- (Hreads w1), E1; reflexivity). subst w1'.
    simpl in Hframe. subst r1. rewrite Ht. split; [reflexivity|].
    subst w1. unfold notify_unless_unread. run.
    destruct (existing_notification (db w) user_id m); simpl;
      [|rewrite List.length_app; simpl]; lia.
  - unfold ret. rewrite E. simpl. split; [reflexivity | lia].
  - rewrite E. simpl. split; [reflexivity | lia].
Qed.

(** ** The claims *)

(** C1 (as amended).  For the first Budget row of the user, with an owner:
    [check_budget] appends a notification row exactly when the remaining
    amount, [amount_limit] minus the sum of the user's expenses dated
    within [start_date, end_date] inclusive, computed on floats as the code
    does, is negative and no unread notification with the same text exists
    for the user; in that case the row is stored and the text pushed.
    When the remaining amount is not negative, nothing is stored or
    pushed. *)
Theorem check_budget_notifies_iff (str : amount -> string)
  (w : World) (user_id : Z) (budget : Budget.t) (owner : User.t) :
  find (fun b => Budget.user_id b =? user_id) (budgets (db w)) = Some budget ->
  Budget_owner (db w) budget = Some owner ->
  let total :=
    sum (map Expense.amount
           (user_expenses_in_range (db w) user_id
              (Budget.start_date budget) (Budget.end_date budget))) in
  let remaining := (Budget.amount_limit budget - total)%float in
  let message := budget_text str (Budget.amount_limit budget) remaining in
  (produces_notification (check_budget str user_id) w
     <-> (remaining <? 0)%float = true
         /\ existing_notification (db w) user_id message = None)
  /\ ((remaining <? 0)%float = true ->
      existing_notification (db w) user_id message = None ->
      check_budget str user_id w = (Return tt, notified w user_id message))
  /\ ((remaining <? 0)%float = false ->
      check_budget str user_id w = (Return tt, w)).
Proof.
  intros Hb Ho total remaining message.
  pose proof (first_budget_owner _ _ _ _ Hb Ho) as Hid.
  assert (Hrun : check_budget str user_id w =
                 if (remaining <? 0)%float
                 then notify_unless_unread user_id message w
                 else (Return tt, w)).
  { unfold check_budget, budget_message. run. rewrite Hb, Ho. simpl.
    rewrite (owner_amounts_are_query _ user_id _ _ _ Hid).
    fold total. fold remaining. destruct (remaining <? 0)%float; reflexivity. }
  assert (Hover : (remaining <? 0)%float = true ->
                  existing_notification (db w) user_id message = None ->
                  check_budget str user_id w = (Return tt, notified w user_id message)).
  { intros Hlt Hnone. rewrite Hrun, Hlt. apply notify_fresh, Hnone. }
  assert (Hunder : (remaining <? 0)%float = false ->
                   check_budget str user_id w = (Return tt, w)).
  { intros Hge. rewrite Hrun, Hge. reflexivity. }
  split; [|split; assumption].
  split.
  - intros [n Hn].
    destruct (remaining <? 0)%float eqn:Hlt.
    + split; [reflexivity|].
      destruct (existing_notification (db w) user_id message) eqn:E; [|reflexivity].
      exfalso. rewrite Hrun in Hn.
      rewrite notify_duplicate in Hn by congruence. simpl in Hn.
      symmetry in Hn. exact (snoc_neq_self _ _ Hn).
    + exfalso. rewrite (Hunder eq_refl) in Hn. simpl in Hn.
      symmetry in Hn. exact (snoc_neq_self _ _ Hn).
  - intros [Hlt Hnone]. unfold produces_notification.
    rewrite (Hover Hlt Hnone). simpl. eexists. reflexivity.
Qed.

Lemma check_budget_notifies_iff_witness :
  check_budget sample_str 1 sample_world = (Return tt, warned_world)
  /\ produces_notification (check_budget sample_str 1) sample_world.
Proof.
  pose proof (check_budget_notifies_iff sample_str sample_world 1 december_budget alice
                eq_refl eq_refl) as H.
  cbv zeta in H. destruct H as (Hiff & Hover & _).
  split.
  - apply Hover; [vm_compute | vm_compute]; reflexivity.
  - apply Hiff. split; vm_compute; reflexivity.
Defined.

(** C1 as stated fails: in [warned_world] the December expenses of the user
    (150.0) are above the budget's limit (100.0), yet [check_budget]
    stores no row and pushes nothing, because the same unread text is
    already there. *)
Lemma check_budget_over_limit_silent :
  find (fun b => Budget.user_id b =? 1) (budgets (db warned_world)) = Some december_budget
  /\ sum (map Expense.amount
            (user_expenses_in_range (db warned_world) 1
               (Budget.start_date december_budget) (Budget.end_date december_budget)))
     = 150%float
  /\ (Budget.amount_limit december_budget <? 150)%float = true
  /\ check_budget sample_str 1 warned_world = (Return tt, warned_world)
  /\ ~ produces_notification (check_budget sample_str 1) warned_world.
Proof.
  split; [reflexivity|]. split; [vm_compute; reflexivity|].
  split; [vm_compute; reflexivity|].
  assert (H : check_budget sample_str 1 warned_world = (Return tt, warned_world))
    by (vm_compute; reflexivity).
  split; [exact H|].
  intros [n Hn]. rewrite H in Hn. cbn [snd] in Hn.
  symmetry in Hn. exact (snoc_neq_self _ _ Hn).
Qed.

(** C2 (as amended).  For a user whose first Alert row is [alert]:
    [check_thresholds] emits a notification (stores the row, pushes the
    text) exactly when the signed overage, the float sum of all the user's
    expense amounts minus the threshold, is not zero and no unread
    notification with the same text exists for the user.  A positive and a
    negative overage both render the message, an overage of zero renders
    none and changes nothing; the text is the fixed wording around the
    threshold as [str] prints it and the overage printed with two
    decimals. *)
Theorem check_thresholds_notifies_iff (str format_2f : amount -> string)
  (w : World) (user_id : Z) (alert : Alert.t) :
  find (fun a => Alert.user_id a =? user_id) (alerts (db w)) = Some alert ->
  let total_expenses :=
    sum (map Expense.amount
           (filter (fun e => Expense.user_id e =? user_id) (expenses (db w)))) in
  let overage := (total_expenses - Alert.threshold alert)%float in
  let message :=
    ("Your alert threshold of " ++ str (Alert.threshold alert)
       ++ " has been exceeded by " ++ format_2f overage)%string in
  (produces_notification (check_thresholds str format_2f user_id) w
     <-> (overage =? 0)%float = false
         /\ existing_notification (db w) user_id message = None)
  /\ ((overage =? 0)%float = false
      <-> threshold_message str format_2f user_id w = (Return (Some message), w))
  /\ ((0 <? overage)%float = true ->
      existing_notification (db w) user_id message = None ->
      check_thresholds str format_2f user_id w = (Return tt, notified w user_id message))
  /\ ((overage <? 0)%float = true ->
      existing_notification (db w) user_id message = None ->
      check_thresholds str format_2f user_id w = (Return tt, notified w user_id message))
  /\ ((overage =? 0)%float = true ->
      check_thresholds str format_2f user_id w = (Return tt, w))
  /\ (existing_notification (db w) user_id message <> None ->
      check_thresholds str format_2f user_id w = (Return tt, w)).
Proof.
  intros Ha total_expenses overage message.
  assert (Hmsg : threshold_message str format_2f user_id w =
                 (Return (if truthy overage then Some message else None), w)).
  { unfold threshold_message. run. rewrite Ha. simpl.
    fold total_expenses. fold overage.
    destruct (truthy overage); reflexivity. }
  assert (Hrun : check_thresholds str format_2f user_id w =
                 if truthy overage
                 then notify_unless_unread user_id message w
                 else (Return tt, w)).
  { unfold check_thresholds, bind. rewrite Hmsg.
    destruct (truthy overage); reflexivity. }
  unfold truthy in Hmsg, Hrun.
  assert (Hfresh : (overage =? 0)%float = false ->
                   existing_notification (db w) user_id message = None ->
                   check_thresholds str format_2f user_id w
                   = (Return tt, notified w user_id message)).
  { intros Hnz Hnone. rewrite Hrun, Hnz. apply notify_fresh, Hnone. }
  assert (Hquiet : (overage =? 0)%float = true
                   \/ existing_notification (db w) user_id message <> None ->
                   check_thresholds str format_2f user_id w = (Return tt, w)).
  { intros Hcase. rewrite Hrun.
    destruct (overage =? 0)%float; [reflexivity|].
    destruct Hcase as [|Hdup]; [discriminate|].
    apply notify_duplicate, Hdup. }
  split; [|split; [|repeat split]].
  - split.
    + intros [n Hn].
      assert (Hloud : ~ ((overage =? 0)%float = true
                         \/ existing_notification (db w) user_id message <> None)).
      { intros Hcase. rewrite (Hquiet Hcase) in Hn. cbn [snd] in Hn.
        symmetry in Hn. exact (snoc_neq_self _ _ Hn). }
      split.
      * destruct (overage =? 0)%float; [|reflexivity].
        exfalso. apply Hloud. left. reflexivity.
      * destruct (existing_notification (db w) user_id message) eqn:E; [|reflexivity].
        exfalso. apply Hloud. right. discriminate.
    + intros [Hnz Hnone]. unfold produces_notification.
      rewrite (Hfresh Hnz Hnone). simpl. eexists. reflexivity.
  - split.
    + intros Hnz. rewrite Hmsg, Hnz. reflexivity.
    + intros H. rewrite Hmsg in H.
      destruct (overage =? 0)%float; [discriminate | reflexivity].
  - intros Hlt. apply Hfresh, positive_is_nonzero, Hlt.
  - intros Hlt. apply Hfresh, negative_is_nonzero, Hlt.
  - intros Heq. apply Hquiet. left. exact Heq.
  - intros Hdup. apply Hquiet. right. exact Hdup.
Qed.

Lemma check_thresholds_notifies_iff_witness :
  check_thresholds sample_str sample_2f 1 sample_world = (Return tt, alerted_world)
  /\ threshold_message sample_str sample_2f 1 sample_world
     = (Return (Some "Your alert threshold of 100.0 has been exceeded by 70.00"),
        sample_world).
Proof.
  pose proof (check_thresholds_notifies_iff sample_str sample_2f
                sample_world 1 alice_alert eq_refl) as H.
  cbv zeta in H. destruct H as (_ & Hmsg & Hover & _).
  split.
  - apply Hover; vm_compute; reflexivity.
  - apply (proj1 Hmsg). vm_compute. reflexivity.
Defined.

(** C2 as stated fails: in [alerted_world] the user's expenses (170.0)
    are above the threshold (100.0), the overage is 70.0, yet
    [check_thresholds] stores no row and pushes nothing, because the same
    unread text is already there. *)
Lemma check_thresholds_nonzero_silent :
  find (fun a => Alert.user_id a =? 1) (alerts (db alerted_world)) = Some alice_alert
  /\ PrimFloat.sub
       (sum (map Expense.amount
               (filter (fun e => Expense.user_id e =? 1) (expenses (db alerted_world)))))
       (Alert.threshold alice_alert) = 70%float
  /\ check_thresholds sample_str sample_2f 1 alerted_world = (Return tt, alerted_world)
  /\ ~ produces_notification (check_thresholds sample_str sample_2f 1) alerted_world.
Proof.
  split; [reflexivity|]. split; [vm_compute; reflexivity|].
  assert (H : check_thresholds sample_str sample_2f 1 alerted_world
              = (Return tt, alerted_world))
    by (vm_compute; reflexivity).
  split; [exact H|].
  intros [n Hn]. rewrite H in Hn. cbn [snd] in Hn.
  symmetry in Hn. exact (snoc_neq_self _ _ Hn).
Qed.

(** C3.  The notifier, which both evaluators run on the message they
    render, stores a new Notification row exactly when no row with the same
    user_id, the same message text and is_read = false exists; then it
    stores that row unread and pushes the text, otherwise it changes
    nothing.  A second run of [check_thresholds]
    or of [check_budget] on the state left by the first run changes
    nothing, and a run adds at most one row. *)
Theorem notification_dedup (str format_2f : amount -> string)
  (w : World) (user_id : Z) (message : string) :
  (produces_notification (notify_unless_unread user_id message) w
     <-> (forall n, In n (notifications (db w)) ->
            ~ (Notification.user_id n = user_id
               /\ Notification.message n = message
               /\ Notification.is_read n = false)))
  /\ (existing_notification (db w) user_id message = None ->
      notify_unless_unread user_id message w = (Return tt, notified w user_id message))
  /\ (existing_notification (db w) user_id message <> None ->
      notify_unless_unread user_id message w = (Return tt, w))
  /\ (forall m, fst (threshold_message str format_2f user_id w) = Return (Some m) ->
      check_thresholds str format_2f user_id w = notify_unless_unread user_id m w)
  /\ (forall m, fst (budget_message str user_id w) = Return (Some m) ->
      check_budget str user_id w = notify_unless_unread user_id m w)
  /\ (let w1 := snd (check_thresholds str format_2f user_id w) in
      snd (check_thresholds str format_2f user_id w1) = w1
      /\ (List.length (notifications (db w1))
          <= 1 + List.length (notifications (db w)))%nat)
  /\ (let w1 := snd (check_budget str user_id w) in
      snd (check_budget str user_id w1) = w1
      /\ (List.length (notifications (db w1))
          <= 1 + List.length (notifications (db w)))%nat).
Proof.
  split; [|split; [apply notify_fresh | split; [apply notify_duplicate |]]].
  2: split; [|split; [|split]].
  - rewrite <- existing_notification_none. unfold produces_notification. split.
    + intros [n Hn].
      destruct (existing_notification (db w) user_id message) eqn:E; [|reflexivity].
      exfalso. rewrite notify_duplicate in Hn by congruence. cbn [snd] in Hn.
      symmetry in Hn. exact (snoc_neq_self _ _ Hn).
    + intros Hnone. rewrite (notify_fresh _ _ _ Hnone). simpl. eexists. reflexivity.
  - intros m Hm. unfold check_thresholds, bind.
    pose proof (threshold_message_reads str format_2f user_id w) as Hr.
    destruct (threshold_message str format_2f user_id w) as [r w']. simpl in Hm, Hr.
    subst r w'. reflexivity.
  - intros m Hm. unfold check_budget, bind.
    pose proof (budget_message_reads str user_id w) as Hr.
    destruct (budget_message str user_id w) as [r w']. simpl in Hm, Hr.
    subst r w'. reflexivity.
  - apply (evaluate_twice (threshold_message str format_2f user_id) user_id w).
    + apply threshold_message_reads.
    + intros m. apply threshold_message_frame;
        apply (notify_keeps_tables w user_id m).
  - apply (evaluate_twice (budget_message str user_id) user_id w).
    + apply budget_message_reads.
    + intros m. apply budget_message_frame;
        apply (notify_keeps_tables w user_id m).
Qed.

Lemma notification_dedup_witness :
  notify_unless_unread 1 "You've exceeded your budget of 100.0 by 50.0." sample_world
  = (Return tt, warned_world)
  /\ notify_unless_unread 1 "You've exceeded your budget of 100.0 by 50.0." warned_world
     = (Return tt, warned_world).
Proof.
  split.
  - destruct (notification_dedup sample_str sample_2f sample_world 1
                "You've exceeded your budget of 100.0 by 50.0.") as (_ & Hfresh & _).
    apply Hfresh. reflexivity.
  - destruct (notification_dedup sample_str sample_2f warned_world 1
                "You've exceeded your budget of 100.0 by 50.0.") as (_ & _ & Hdup & _).
    apply Hdup. vm_compute. discriminate.
Defined.

(** C9.  A user without an Alert row makes [check_thresholds] raise on
    [alert.threshold], and a user without a Budget row makes [check_budget]
    raise on [budget.start_date]; neither does nothing.  [get_alerts]
    answers with the user's alerts and schedules [check_thresholds] whatever
    they are, so for a user without alerts the scheduled task raises. *)
Theorem evaluators_raise_without_record (str format_2f : amount -> string)
  (w : World) (current_user : User.t) :
  ((forall a, In a (alerts (db w)) -> Alert.user_id a <> User.id current_user) ->
   check_thresholds str format_2f (User.id current_user) w
   = (Raise (AttributeError "threshold"), w))
  /\ ((forall b, In b (budgets (db w)) -> Budget.user_id b <> User.id current_user) ->
      check_budget str (User.id current_user) w = (Raise (AttributeError "start_date"), w))
  /\ (let w1 := mkWorld (db w) (sent w)
                  (scheduled w ++ [CheckThresholds (User.id current_user)]) in
      get_alerts current_user w
      = (Return (filter (fun a => Alert.user_id a =? User.id current_user)
                        (alerts (db w))), w1)
      /\ ((forall a, In a (alerts (db w)) -> Alert.user_id a <> User.id current_user) ->
          fst (get_alerts current_user w) = Return []
          /\ run_task str format_2f (CheckThresholds (User.id current_user)) w1
             = (Raise (AttributeError "threshold"), w1))).
Proof.
  assert (Hnone : forall d : DB,
             (forall a, In a (alerts d) -> Alert.user_id a <> User.id current_user) ->
             find (fun a => Alert.user_id a =? User.id current_user) (alerts d) = None).
  { intros d H. apply find_none_iff. intros a Ha.
    apply Z.eqb_neq, H, Ha. }
  assert (Hraise : forall w0 : World,
             (forall a, In a (alerts (db w0)) -> Alert.user_id a <> User.id current_user) ->
             check_thresholds str format_2f (User.id current_user) w0
             = (Raise (AttributeError "threshold"), w0)).
  { intros w0 H. unfold check_thresholds, threshold_message. run.
    rewrite (Hnone _ H). reflexivity. }
  split; [apply Hraise | split].
  - intros H. unfold check_budget, budget_message. run.
    replace (find _ (budgets (db w))) with (@None Budget.t); [reflexivity|].
    symmetry. apply find_none_iff. intros b Hb. apply Z.eqb_neq, H, Hb.
  - cbv zeta. split; [reflexivity|].
    intros H. split.
    + unfold get_alerts. run.
      assert (Hf : forall l : list Alert.t,
                 (forall a, In a l -> Alert.user_id a <> User.id current_user) ->
                 filter (fun a => Alert.user_id a =? User.id current_user) l = []).
      { induction l as [|a l IH]; intros Hl; simpl; [reflexivity|].
        destruct (Z.eqb_spec (Alert.user_id a) (User.id current_user)) as [Heq|_].
        - exfalso. exact (Hl a (or_introl eq_refl) Heq).
        - apply IH. intros x Hx. apply Hl. right. exact Hx. }
      rewrite (Hf _ H). reflexivity.
    + simpl. apply Hraise. exact H.
Qed.

Lemma evaluators_raise_without_record_witness :
  check_thresholds sample_str sample_2f 2 sample_world
  = (Raise (AttributeError "threshold"), sample_world)
  /\ check_budget sample_str 2 sample_world = (Raise (AttributeError "start_date"), sample_world)
  /\ get_alerts bob sample_world
     = (Return [], mkWorld sample_db [] [CheckThresholds 2])
  /\ run_task sample_str sample_2f (CheckThresholds 2) (mkWorld sample_db [] [CheckThresholds 2])
     = (Raise (AttributeError "threshold"), mkWorld sample_db [] [CheckThresholds 2]).
Proof.
  assert (Hno : forall a, In a (alerts (db sample_world)) -> Alert.user_id a <> User.id bob)
    by (intros a [<-|[]]; vm_compute; discriminate).
  destruct (evaluators_raise_without_record sample_str sample_2f sample_world bob)
    as (Ha & Hb & Hg).
  cbv zeta in Hg. destruct Hg as [Hget Htask].
  split; [|split; [|split]].
  - exact (Ha Hno).
  - apply Hb. intros b [<-|[]]. vm_compute. discriminate.
  - exact Hget.
  - exact (proj2 (Htask Hno)).
Defined.

(** C10.  In [check_budget], for the first Budget row of the user and its
    owner, the amounts the comprehension over [budget.owner.expenses]
    collects are those of the rows the (unused) query selects: the same
    multiset, hence the same sum. *)
Theorem check_budget_scopes_agree
  (d : DB) (user_id : Z) (budget : Budget.t) (owner : User.t) :
  find (fun b => Budget.user_id b =? user_id) (budgets d) = Some budget ->
  Budget_owner d budget = Some owner ->
  let comprehension :=
    owner_amounts_in_range d owner (Budget.start_date budget) (Budget.end_date budget) in
  let queried :=
    map Expense.amount
        (user_expenses_in_range d user_id
           (Budget.start_date budget) (Budget.end_date budget)) in
  Permutation comprehension queried /\ sum comprehension = sum queried.
Proof.
  intros Hb Ho. cbv zeta.
  rewrite (owner_amounts_are_query d user_id owner _ _ (first_budget_owner _ _ _ _ Hb Ho)).
  split; [apply Permutation_refl | reflexivity].
Qed.

Lemma check_budget_scopes_agree_witness :
  Permutation
    (owner_amounts_in_range sample_db alice (mkdate 2024 12 1) (mkdate 2024 12 31))
    (map Expense.amount
       (user_expenses_in_range sample_db 1 (mkdate 2024 12 1) (mkdate 2024 12 31)))
  /\ sum (owner_amounts_in_range sample_db alice (mkdate 2024 12 1) (mkdate 2024 12 31))
     = 150%float.
Proof.
  destruct (check_budget_scopes_agree sample_db 1 december_budget alice
              eq_refl eq_refl) as [Hp Hs].
  split; [exact Hp|]. reflexivity.
Defined.

Lemma check_thresholds_keeps_alerts (str format_2f : amount -> string) (user_id : Z) (w : World) :
  alerts (db (snd (check_thresholds str format_2f user_id w))) = alerts (db w).
Proof.
  unfold check_thresholds, bind.
  pose proof (threshold_message_reads str format_2f user_id w) as Hr.
  destruct (threshold_message str format_2f user_id w) as [[[m|]|e] w']; simpl in *; subst w';
    try reflexivity.
  apply (notify_keeps_tables w user_id m).
Qed.

Lemma create_alert_duplicate
  (w : World) (current_user : User.t) (alert_data : AlertCreate.t) (a : Alert.t) :
  In a (alerts (db w)) ->
  Alert.user_id a = User.id current_user ->
  (Alert.threshold a =? AlertCreate.threshold alert_data)%float = true ->
  exists detail,
    create_alert alert_data current_user w
    = (Raise (HTTPException HTTP_400_BAD_REQUEST detail), w).
Proof.
  intros Hin Hu Ht. unfold create_alert. run.
  destruct (find _ (alerts (db w))) eqn:E.
  - eexists. reflexivity.
  - exfalso. apply (find_none _ _ E) in Hin. simpl in Hin.
    rewrite Hu, Ht, Z.eqb_refl in Hin. discriminate.
Qed.

Lemma post_alert_runs (alert_data : AlertCreate.t) (current_user : User.t) (w : World) :
  post_alert alert_data current_user w
  = match create_alert alert_data current_user w with
    | (Return _, w') => (Raise (ResponseValidationError "message"), w')
    | (Raise e, w') => (Raise e, w')
    end.
Proof.
  unfold post_alert, serialize_alert, bind, raise.
  destruct (create_alert alert_data current_user w) as [[alert|e] w']; reflexivity.
Qed.

(** C5 (the divergence).  When the user has no Alert row with the requested
    threshold, the handler [create_alert] stores the new alert and
    schedules the threshold check, but the request is not answered 201:
    the response model rejects the row the handler returned, which has no
    [message], and the stored alert stays.  A second request with the same
    threshold (a number) from that user, sent at once or after the
    scheduled check has run, is refused with status 400 and changes
    nothing. *)
Theorem create_alert_then_conflict (str format_2f : amount -> string)
  (w : World) (current_user : User.t) (alert_data : AlertCreate.t) :
  (forall a, In a (alerts (db w)) ->
     ~ (Alert.user_id a = User.id current_user
        /\ (Alert.threshold a =? AlertCreate.threshold alert_data)%float = true)) ->
  (AlertCreate.threshold alert_data =? AlertCreate.threshold alert_data)%float = true ->
  let alert :=
    Alert.mk (next_id (map Alert.id (alerts (db w))))
             (AlertCreate.threshold alert_data) (User.id current_user) in
  let w1 :=
    mkWorld (with_alerts (fun l => l ++ [alert]) (db w)) (sent w)
            (scheduled w ++ [CheckThresholds (User.id current_user)]) in
  let w2 := snd (run_task str format_2f (CheckThresholds (User.id current_user)) w1) in
  create_alert alert_data current_user w = (Return alert, w1)
  /\ post_alert alert_data current_user w
     = (Raise (ResponseValidationError "message"), w1)
  /\ alerts (db w1) = alerts (db w) ++ [alert]
  /\ (exists detail,
        post_alert alert_data current_user w1 = (Raise (HTTPException 400 detail), w1))
  /\ (exists detail,
        post_alert alert_data current_user w2 = (Raise (HTTPException 400 detail), w2)).
Proof.
  intros Hfree Hnum alert w1 w2.
  assert (Hrun : create_alert alert_data current_user w = (Return alert, w1)).
  { unfold create_alert. run.
    replace (find _ (alerts (db w))) with (@None Alert.t); [reflexivity|].
    symmetry. apply find_none_iff. intros a Ha. specialize (Hfree a Ha).
    destruct (Z.eqb_spec (Alert.user_id a) (User.id current_user)); [|reflexivity].
    destruct (Alert.threshold a =? AlertCreate.threshold alert_data)%float;
      [|reflexivity].
    exfalso. apply Hfree. auto. }
  assert (Hagain : forall w', In alert (alerts (db w')) ->
            exists detail,
              post_alert alert_data current_user w'
              = (Raise (HTTPException 400 detail), w')).
  { intros w' Hin.
    destruct (create_alert_duplicate w' current_user alert_data alert Hin eq_refl Hnum)
      as [detail Hd].
    exists detail. rewrite post_alert_runs, Hd. reflexivity. }
  split; [exact Hrun|]. split; [rewrite post_alert_runs, Hrun; reflexivity|].
  split; [reflexivity|]. split; apply Hagain.
  - simpl. apply in_or_app. right. left. reflexivity.
  - unfold w2. simpl run_task. rewrite check_thresholds_keeps_alerts.
    simpl. apply in_or_app. right. left. reflexivity.
Qed.

Lemma create_alert_then_conflict_witness :
  post_alert (AlertCreate.mk 250) alice sample_world
  = (Raise (ResponseValidationError "message"),
     mkWorld (with_alerts (fun l => l ++ [Alert.mk 2 250 1]) sample_db) []
             [CheckThresholds 1])
  /\ exists detail,
       post_alert (AlertCreate.mk 250) alice
         (mkWorld (with_alerts (fun l => l ++ [Alert.mk 2 250 1]) sample_db) []
                  [CheckThresholds 1])
       = (Raise (HTTPException 400 detail),
          mkWorld (with_alerts (fun l => l ++ [Alert.mk 2 250 1]) sample_db) []
                  [CheckThresholds 1]).
Proof.
  assert (Hfree : forall a, In a (alerts (db sample_world)) ->
                    ~ (Alert.user_id a = User.id alice
                       /\ (Alert.threshold a
                           =? AlertCreate.threshold (AlertCreate.mk 250))%float = true))
    by (intros a [<-|[]] [_ H]; vm_compute in H; discriminate).
  pose proof (create_alert_then_conflict sample_str sample_2f sample_world alice
                (AlertCreate.mk 250) Hfree eq_refl) as H.
  cbv zeta in H. destruct H as (_ & H1 & _ & H2 & _).
  split; [exact H1 | exact H2].
Defined.

(** C7.  [get_refresh_token] answers 401 and issues no token when the
    refresh token fails verification, when its claims hold no subject, and
    when no User row has the subject as username; otherwise it answers with
    a new access token for that subject and token_type "bearer".  The
    database is not written. *)
Theorem refresh_token_outcomes
  (create_access_token : payload -> string)
  (decode_refresh_token : string -> option payload)
  (w : World) (refresh_token : string) :
  let run := get_refresh_token create_access_token decode_refresh_token refresh_token w in
  (decode_refresh_token refresh_token = None ->
   exists detail, run = (Raise (HTTPException 401 detail), w))
  /\ (forall claims,
        decode_refresh_token refresh_token = Some claims ->
        dict_get "sub" claims = None ->
        exists detail, run = (Raise (HTTPException 401 detail), w))
  /\ (forall claims username,
        decode_refresh_token refresh_token = Some claims ->
        dict_get "sub" claims = Some username ->
        (forall u, In u (users (db w)) -> User.username u <> username) ->
        exists detail, run = (Raise (HTTPException 401 detail), w))
  /\ (forall claims username u,
        decode_refresh_token refresh_token = Some claims ->
        dict_get "sub" claims = Some username ->
        In u (users (db w)) -> User.username u = username ->
        run = (Return (RefreshResponse.mk (create_access_token [("sub", username)])
                                          "bearer"), w)).
Proof.
  cbv zeta. unfold get_refresh_token, verify_refresh_token. run.
  split; [|split; [|split]].
  - intros ->. eexists. reflexivity.
  - intros claims -> Hsub. simpl. rewrite Hsub. eexists. reflexivity.
  - intros claims username -> Hsub Hnone. simpl. rewrite Hsub.
    replace (find _ (users (db w))) with (@None User.t); [eexists; reflexivity|].
    symmetry. apply find_none_iff. intros u Hu.
    apply String.eqb_neq, Hnone, Hu.
  - intros claims username u -> Hsub Hin Hname. simpl. rewrite Hsub.
    destruct (find _ (users (db w))) eqn:E; [reflexivity|].
    exfalso. apply (find_none _ _ E) in Hin. simpl in Hin.
    rewrite Hname, String.eqb_refl in Hin. discriminate.
Qed.

Lemma refresh_token_outcomes_witness :
  get_refresh_token sample_encode sample_decode "refresh-alice" sample_world
  = (Return (RefreshResponse.mk "access-alice" "bearer"), sample_world)
  /\ (exists detail,
        get_refresh_token sample_encode sample_decode "forged" sample_world
        = (Raise (HTTPException 401 detail), sample_world))
  /\ (exists detail,
        get_refresh_token sample_encode sample_decode "refresh-anonymous" sample_world
        = (Raise (HTTPException 401 detail), sample_world))
  /\ (exists detail,
        get_refresh_token sample_encode sample_decode "refresh-carol" sample_world
        = (Raise (HTTPException 401 detail), sample_world)).
Proof.
  split; [|split; [|split]].
  - apply (refresh_token_outcomes sample_encode sample_decode sample_world
             "refresh-alice") with (claims := [("sub", "alice")]) (u := alice);
      try reflexivity.
    left. reflexivity.
  - apply (refresh_token_outcomes sample_encode sample_decode sample_world "forged").
    reflexivity.
  - apply (refresh_token_outcomes sample_encode sample_decode sample_world
             "refresh-anonymous") with (claims := [("exp", "1735689600")]);
      reflexivity.
  - apply (refresh_token_outcomes sample_encode sample_decode sample_world
             "refresh-carol") with (claims := [("sub", "carol")]) (username := "carol");
      try reflexivity.
    intros u [<-|[<-|[]]]; vm_compute; discriminate.
Defined.

(** ** Deleting a user *)

Lemma delete_rows_covers {A} (key fk : A -> Z) (uid : Z) (victims table : list A) (r : A) :
  (forall x, In x table -> fk x = uid -> In x victims) ->
  In r (delete_rows key victims table) -> fk r <> uid.
Proof.
  intros Hcover Hr Hfk. unfold delete_rows in Hr.
  apply filter_In in Hr. destruct Hr as [Hin Hkeep].
  apply negb_true_iff in Hkeep.
  assert (Hex : existsb (fun v => key v =? key r) victims = true).
  { apply existsb_exists. exists r. split; [apply Hcover; assumption | apply Z.eqb_refl]. }
  congruence.
Qed.

Lemma delete_rows_owned {A} (key fk : A -> Z) (uid : Z) (table : list A) (r : A) :
  In r (delete_rows key (filter (fun x => fk x =? uid) table) table) -> fk r <> uid.
Proof.
  apply delete_rows_covers. intros x Hx Hfk. apply filter_In. split; [exact Hx|].
  apply Z.eqb_eq, Hfk.
Qed.

Lemma cascade_owns_nothing (u : User.t) (d : DB) :
  owns_nothing (delete_User_cascade u d) (User.id u)
  /\ (forall x, In x (users (delete_User_cascade u d)) -> User.id x <> User.id u).
Proof.
  unfold owns_nothing, delete_User_cascade. simpl.
  repeat split; intros r Hr; try (revert Hr; apply delete_rows_owned).
  - revert Hr. apply delete_rows_covers. intros x Hx Hfk.
    apply in_or_app. left. apply filter_In. split; [exact Hx | apply Z.eqb_eq, Hfk].
  - unfold delete_rows in Hr. apply filter_In in Hr. destruct Hr as [_ Hkeep].
    simpl in Hkeep. rewrite orb_false_r in Hkeep.
    apply negb_true_iff, Z.eqb_neq in Hkeep. intros Heq. apply Hkeep. symmetry. exact Heq.
Qed.

Lemma for_each_commit {A} (f : A -> DB -> DB) (l : list A) (w : World) :
  for_each l (fun x => commit (f x)) w
  = (Return tt, mkWorld (fold_left (fun d x => f x d) l (db w)) (sent w) (scheduled w)).
Proof.
  revert w. induction l as [|x l IH]; intros w; simpl.
  - destruct w; reflexivity.
  - unfold bind, commit at 1. rewrite IH. reflexivity.
Qed.

Lemma guarded_for_each_commit {A} (f : A -> DB -> DB) (l : list A) (w : World) :
  (if nonempty l then for_each l (fun x => commit (f x)) else ret tt) w
  = (Return tt, mkWorld (fold_left (fun d x => f x d) l (db w)) (sent w) (scheduled w)).
Proof.
  destruct l as [|x l].
  - destruct w; reflexivity.
  - cbn [nonempty]. apply for_each_commit.
Qed.

Lemma delete_user_runs (user_id : Z) (w : World) (target_user : User.t) :
  find (fun u => User.id u =? user_id) (users (db w)) = Some target_user ->
  exists d,
    delete_user user_id w
    = (Return ("Deleted user '" ++ User.username target_user ++ "' successfully")%string,
       mkWorld (delete_User_cascade target_user d) (sent w) (scheduled w)).
Proof.
  intros Hfind. unfold delete_user. unfold bind at 1. unfold query at 1.
  rewrite Hfind.
  unfold bind. rewrite guarded_for_each_commit. cbn [db sent scheduled].
  rewrite guarded_for_each_commit. cbn [db sent scheduled].
  rewrite guarded_for_each_commit. cbn [db sent scheduled].
  rewrite guarded_for_each_commit. cbn [db sent scheduled].
  unfold commit, ret. cbn [db sent scheduled]. eexists. reflexivity.
Qed.

Lemma same_but_groups_refl (d : DB) : same_but_groups d d.
Proof. unfold same_but_groups. repeat split. Qed.

Lemma same_but_groups_fold (l : list Group.t) (d : DB) :
  same_but_groups d (fold_left (fun d g => delete_Group g d) l d).
Proof.
  revert d. induction l as [|g l IH]; intros d; simpl.
  - apply same_but_groups_refl.
  - specialize (IH (delete_Group g d)). unfold same_but_groups in *. simpl in IH.
    exact IH.
Qed.

Lemma groups_loop_runs (members : list GroupMember.t) (w : World) :
  exists d,
    for_each members
      (fun group_member =>
         d <- query ;;
         for_each
           (filter (fun g => Group.id g =? GroupMember.id group_member) (groups d))
           (fun group => commit (delete_Group group))) w
    = (Return tt, mkWorld d (sent w) (scheduled w))
    /\ same_but_groups (db w) d.
Proof.
  revert w. induction members as [|m members IH]; intros w.
  - exists (db w). split; [destruct w; reflexivity | apply same_but_groups_refl].
  - cbn [for_each]. unfold bind at 1. unfold bind at 1. unfold query at 1.
    rewrite for_each_commit.
    match goal with
    | |- context [mkWorld ?d0 (sent w) (scheduled w)] =>
        destruct (IH (mkWorld d0 (sent w) (scheduled w))) as (d & Hrun & Hsame);
        pose proof (same_but_groups_fold
                      (filter (fun g => Group.id g =? GroupMember.id m) (groups (db w)))
                      (db w)) as Hstep
    end.
    exists d. split; [exact Hrun|].
    cbn [db] in Hsame. unfold same_but_groups in *.
    destruct Hsame as (H1 & H2 & H3 & H4 & H5 & H6 & H7 & H8 & H9).
    destruct Hstep as (S1 & S2 & S3 & S4 & S5 & S6 & S7 & S8 & S9).
    repeat split; congruence.
Qed.

Lemma unique_by {A B} (f : A -> B) (l : list A) (a b : A) :
  NoDup (map f l) -> In a l -> In b l -> f a = f b -> a = b.
Proof.
  induction l as [|x l IH]; intros Hnd Ha Hb Hf; [contradiction|].
  simpl in Hnd. inversion Hnd as [|? ? Hnotin Hnd']; subst.
  destruct Ha as [<-|Ha], Hb as [<-|Hb].
  - reflexivity.
  - exfalso. apply Hnotin. rewrite Hf. apply in_map, Hb.
  - exfalso. apply Hnotin. rewrite <- Hf. apply in_map, Ha.
  - apply IH; assumption.
Qed.

Lemma delete_account_runs (user : User.t) (w : World) :
  In user (users (db w)) ->
  NoDup (map User.username (users (db w))) ->
  exists d target_user,
    User.id target_user = User.id user
    /\ same_but_groups (db w) d
    /\ delete_account user w
       = (Return ("Deleted account of '" ++ User.username target_user
                    ++ "' successfully")%string,
          mkWorld (delete_User_cascade target_user d) (sent w) (scheduled w)).
Proof.
  intros Hin Hnd. unfold delete_account. unfold bind at 1. unfold query at 1.
  cbv beta iota zeta.
  set (members := filter _ (group_members (db w))).
  assert (Hloop : exists d,
             (if nonempty members
              then for_each members
                     (fun group_member =>
                        d <- query ;;
                        for_each
                          (filter (fun g => Group.id g =? GroupMember.id group_member)
                                  (groups d))
                          (fun group => commit (delete_Group group)))
              else ret tt) w
             = (Return tt, mkWorld d (sent w) (scheduled w))
             /\ same_but_groups (db w) d).
  { destruct members as [|m ms] eqn:E.
    - exists (db w). split; [destruct w; reflexivity | apply same_but_groups_refl].
    - cbn [nonempty]. apply groups_loop_runs. }
  destruct Hloop as (d & Hrun & Hsame).
  unfold bind at 1. rewrite Hrun. unfold bind at 1. unfold query at 1. cbn [db].
  pose proof Hsame as (Husers & _). rewrite Husers.
  destruct (find (fun u => String.eqb (User.username u) (User.username user)
                           && String.eqb (User.email u) (User.email user))
                 (users (db w))) as [row|] eqn:Erow.
  - apply find_some in Erow. destruct Erow as [Hrow Hmatch].
    apply andb_true_iff in Hmatch. destruct Hmatch as [Hname _].
    apply String.eqb_eq in Hname.
    assert (row = user) by (apply (unique_by User.username (users (db w))); assumption).
    subst row.
    destruct (find (fun u => User.id u =? User.id user) (users (db w)))
      as [target_user|] eqn:Etarget.
    + exists d, target_user. apply find_some in Etarget.
      destruct Etarget as [_ Hid]. apply Z.eqb_eq in Hid.
      split; [exact Hid | split; [exact Hsame | reflexivity]].
    + exfalso. apply (find_none _ _ Etarget) in Hin. simpl in Hin.
      rewrite Z.eqb_refl in Hin. discriminate.
  - exfalso. apply (find_none _ _ Erow) in Hin. simpl in Hin.
    rewrite !String.eqb_refl in Hin. discriminate.
Qed.

(** C8.  Both deletions succeed for a user in the table (the account
    deletion for the authenticated user of a table with unique usernames),
    and afterwards no row of the Expense, Budget, Category, Alert,
    Notification, GroupMember, GroupExpense or ExpenseSplit tables names
    that user, whose own row is gone as well. *)
Theorem user_deletion_cascades (w : World) (user : User.t) :
  In user (users (db w)) ->
  (exists response w',
     delete_user (User.id user) w = (Return response, w')
     /\ owns_nothing (db w') (User.id user)
     /\ (forall x, In x (users (db w')) -> User.id x <> User.id user))
  /\ (NoDup (map User.username (users (db w))) ->
      exists response w',
        delete_account user w = (Return response, w')
        /\ owns_nothing (db w') (User.id user)
        /\ (forall x, In x (users (db w')) -> User.id x <> User.id user)).
Proof.
  intros Hin. split.
  - destruct (find (fun u => User.id u =? User.id user) (users (db w)))
      as [target_user|] eqn:E.
    + destruct (delete_user_runs _ _ _ E) as [d Hrun].
      apply find_some in E. destruct E as [_ Hid]. apply Z.eqb_eq in Hid.
      do 2 eexists. split; [exact Hrun|]. cbn [db]. rewrite <- Hid.
      apply cascade_owns_nothing.
    + exfalso. apply (find_none _ _ E) in Hin. simpl in Hin.
      rewrite Z.eqb_refl in Hin. discriminate.
  - intros Hnd.
    destruct (delete_account_runs user w Hin Hnd) as (d & target_user & Hid & _ & Hrun).
    do 2 eexists. split; [exact Hrun|]. cbn [db]. rewrite <- Hid.
    apply cascade_owns_nothing.
Qed.

Lemma user_deletion_cascades_witness :
  (exists response w',
     delete_user 1 shared_world = (Return response, w') /\ owns_nothing (db w') 1)
  /\ (exists response w',
        delete_account alice shared_world = (Return response, w')
        /\ owns_nothing (db w') 1).
Proof.
  assert (Hin : In alice (users (db shared_world))) by (left; reflexivity).
  destruct (user_deletion_cascades shared_world alice Hin) as [Hadmin Haccount].
  split.
  - destruct Hadmin as (response & w' & Hrun & Hown & _).
    exists response, w'. split; [exact Hrun | exact Hown].
  - destruct Haccount as (response & w' & Hrun & Hown & _).
    + repeat constructor; simpl; intuition discriminate.
    + exists response, w'. split; [exact Hrun | exact Hown].
Defined.

(** C6.  The claim holds of the intent, not of the code: the loop looks up
    [Group.id == group_member.id], the key of the membership row, where the
    group's key is [group_member.group_id].  In [shared_world] alice is
    admin of the flat (group 1) through membership row 2: her account
    deletion deletes the trip (group 2), which bob administers, and leaves
    the flat. *)
Theorem delete_account_deletes_group_by_member_key :
  In (GroupMember.mk 2 1 1 "admin" "active") (group_members (db shared_world))
  /\ groups (db shared_world) = [flat; trip]
  /\ fst (delete_account alice shared_world)
     = Return "Deleted account of 'alice' successfully"
  /\ groups (db (snd (delete_account alice shared_world))) = [flat]
  /\ users (db (snd (delete_account alice shared_world))) = [bob].
Proof.
  split; [right; left; reflexivity|].
  repeat split; vm_compute; reflexivity.
Qed.

(** ** Registration *)

Lemma next_id_fresh (ids : list Z) (x : Z) : In x ids -> x < next_id ids.
Proof.
  unfold next_id. induction ids as [|y ids IH]; intros Hin; [contradiction|].
  cbn [fold_right]. destruct Hin as [->|Hin]; [lia|]. specialize (IH Hin). lia.
Qed.





(** * Further properties of the handlers *)

(** ** Keys and unique columns *)

Lemma NoDup_snoc {A} (l : list A) (x : A) :
  NoDup l -> ~ In x l -> NoDup (l ++ [x]).
Proof.
  induction l as [|a l IH]; intros Hnd Hx; simpl.
  - constructor; [intros [] | constructor].
  - inversion Hnd as [|? ? Ha Hl]; subst. constructor.
    + intros Hin. apply in_app_or in Hin. destruct Hin as [Hin|[Heq|[]]].
      * exact (Ha Hin).
      * apply Hx. left. symmetry. exact Heq.
    + apply IH; [exact Hl|]. intros Hin. apply Hx. right. exact Hin.
Qed.

Lemma next_id_not_in (ids : list Z) : ~ In (next_id ids) ids.
Proof. intros Hin. apply next_id_fresh in Hin. lia. Qed.

Lemma delete_one {A} (key : A -> Z) (v : A) (table : list A) :
  delete_rows key [v] table = filter (fun r => negb (key r =? key v)) table.
Proof.
  unfold delete_rows. apply filter_ext. intros r. simpl.
  rewrite orb_false_r, (Z.eqb_sym (key v)). reflexivity.
Qed.

Lemma filter_all {A} (p : A -> bool) (l : list A) :
  (forall x, In x l -> p x = true) -> filter p l = l.
Proof.
  induction l as [|a l IH]; intros H; simpl; [reflexivity|].
  rewrite (H a (or_introl eq_refl)). f_equal. apply IH.
  intros x Hx. apply H. right. exact Hx.
Qed.

Lemma length_without_key {A} (key : A -> Z) (v : A) (table : list A) :
  NoDup (map key table) -> In v table ->
  S (List.length (filter (fun r => negb (key r =? key v)) table)) = List.length table.
Proof.
  induction table as [|a l IH]; intros Hnd Hin; [contradiction|].
  simpl in Hnd. inversion Hnd as [|? ? Ha Hl]; subst. simpl.
  destruct Hin as [->|Hin].
  - rewrite Z.eqb_refl. simpl. f_equal. f_equal. apply filter_all.
    intros x Hx. apply negb_true_iff, Z.eqb_neq. intros Heq.
    apply Ha. rewrite <- Heq. apply in_map, Hx.
  - destruct (Z.eqb_spec (key a) (key v)) as [Heq|Hne]; simpl.
    + exfalso. apply Ha. rewrite Heq. apply in_map, Hin.
    + f_equal. apply IH; assumption.
Qed.

Lemma no_alert_of (uid : Z) (l : list Alert.t) :
  find (fun a => Alert.user_id a =? uid) l = None <->
  (forall a, In a l -> Alert.user_id a <> uid).
Proof.
  rewrite find_none_iff. split; intros H a Ha.
  - apply Z.eqb_neq, H, Ha.
  - apply Z.eqb_neq, H, Ha.
Qed.

Lemma first_alert_of (uid : Z) (l : list Alert.t) (alert : Alert.t) :
  find (fun a => Alert.user_id a =? uid) l = Some alert ->
  In alert l /\ Alert.user_id alert = uid.
Proof.
  intros H. apply find_some in H. destruct H as [Hin Heq].
  split; [exact Hin | apply Z.eqb_eq, Heq].
Qed.

Lemma create_alert_cases
  (w : World) (current_user : User.t) (alert_data : AlertCreate.t) :
  let alert :=
    Alert.mk (next_id (map Alert.id (alerts (db w))))
             (AlertCreate.threshold alert_data) (User.id current_user) in
  ((exists a, In a (alerts (db w))
              /\ Alert.user_id a = User.id current_user
              /\ (Alert.threshold a =? AlertCreate.threshold alert_data)%float = true)
   /\ exists detail,
        create_alert alert_data current_user w = (Raise (HTTPException 400 detail), w))
  \/ ((forall a, In a (alerts (db w)) ->
         ~ (Alert.user_id a = User.id current_user
            /\ (Alert.threshold a =? AlertCreate.threshold alert_data)%float = true))
      /\ create_alert alert_data current_user w
         = (Return alert,
            mkWorld (with_alerts (fun l => l ++ [alert]) (db w)) (sent w)
                    (scheduled w ++ [CheckThresholds (User.id current_user)]))).
Proof.
  cbv zeta. unfold create_alert. run.
  destruct (find _ (alerts (db w))) as [a|] eqn:E.
  - left. apply find_some in E. destruct E as [Hin Hmatch].
    apply andb_true_iff in Hmatch. destruct Hmatch as [Hu Ht].
    apply Z.eqb_eq in Hu.
    split; [exists a; auto | eexists; reflexivity].
  - right. split; [|reflexivity].
    intros a Ha [Hu Ht]. apply (find_none _ _ E) in Ha. simpl in Ha.
    rewrite Hu, Ht, Z.eqb_refl in Ha. discriminate.
Qed.

(** ** The alert handlers *)

(** X1.  [create_alert] keeps the Alert table well-keyed: when ids are
    unique and no user has two alerts with one threshold, both still hold
    after any request for a threshold that is a number, accepted or
    refused. *)
Theorem create_alert_keeps_invariants
  (w : World) (current_user : User.t) (alert_data : AlertCreate.t) :
  NoDup (map Alert.id (alerts (db w))) ->
  thresholds_distinct (db w) ->
  (AlertCreate.threshold alert_data =? AlertCreate.threshold alert_data)%float = true ->
  let w' := snd (create_alert alert_data current_user w) in
  NoDup (map Alert.id (alerts (db w'))) /\ thresholds_distinct (db w').
Proof.
  intros Hids Hthr Hnum. cbv zeta.
  destruct (create_alert_cases w current_user alert_data) as [[_ [detail ->]]|[Hfree ->]].
  - split; assumption.
  - unfold thresholds_distinct. simpl. rewrite !map_app. simpl. split.
    + apply NoDup_snoc; [exact Hids | apply next_id_not_in].
    + apply NoDup_snoc; [exact Hthr|].
      intros Hin. apply in_map_iff in Hin. destruct Hin as (a & Heq & Ha).
      inversion Heq as [[Hu Ht]]. apply (Hfree a Ha). rewrite Ht. auto.
Qed.

Lemma create_alert_keeps_invariants_witness :
  NoDup (map Alert.id
           (alerts (db (snd (create_alert (AlertCreate.mk 250) alice sample_world)))))
  /\ thresholds_distinct
       (db (snd (create_alert (AlertCreate.mk 250) alice sample_world))).
Proof.
  apply (create_alert_keeps_invariants sample_world alice (AlertCreate.mk 250)).
  - repeat constructor; simpl; intuition discriminate.
  - unfold thresholds_distinct. repeat constructor; simpl; intuition discriminate.
  - reflexivity.
Defined.

(** X2.  [update_alert] answers 404 and writes nothing for a user without
    alerts.  Otherwise, in a table with unique ids, it answers with the
    user's first alert carrying the requested threshold, stores it in place
    of that alert, leaves every other row, the ids and the owners as they
    were, and schedules the threshold check. *)
Theorem update_alert_outcomes
  (w : World) (current_user : User.t) (alert_data : AlertUpdate.t) :
  ((forall a, In a (alerts (db w)) -> Alert.user_id a <> User.id current_user) ->
   update_alert alert_data current_user w
   = (Raise (HTTPException 404 "Alert not found"), w))
  /\ (forall alert,
        find (fun a => Alert.user_id a =? User.id current_user) (alerts (db w))
        = Some alert ->
        NoDup (map Alert.id (alerts (db w))) ->
        let w' := snd (update_alert alert_data current_user w) in
        fst (update_alert alert_data current_user w)
        = Return (apply_update alert_data alert)
        /\ alerts (db w')
           = map (fun a => if Alert.id a =? Alert.id alert
                           then apply_update alert_data alert else a)
                 (alerts (db w))
        /\ map Alert.id (alerts (db w')) = map Alert.id (alerts (db w))
        /\ map Alert.user_id (alerts (db w')) = map Alert.user_id (alerts (db w))
        /\ (forall a, In a (alerts (db w)) -> a <> alert -> In a (alerts (db w')))
        /\ In (apply_update alert_data alert) (alerts (db w'))
        /\ scheduled w' = scheduled w ++ [CheckThresholds (User.id current_user)]
        /\ sent w' = sent w).
Proof.
  split.
  - intros Hnone. unfold update_alert. run.
    rewrite (proj2 (no_alert_of _ _) Hnone). reflexivity.
  - intros alert Hfind Hnd. cbv zeta. unfold update_alert. run. rewrite Hfind. simpl.
    destruct (first_alert_of _ _ _ Hfind) as [Hin Hu].
    assert (Hid : Alert.id (apply_update alert_data alert) = Alert.id alert)
      by (unfold apply_update; destruct (AlertUpdate.threshold alert_data); reflexivity).
    assert (Huid : Alert.user_id (apply_update alert_data alert) = Alert.user_id alert)
      by (unfold apply_update; destruct (AlertUpdate.threshold alert_data); reflexivity).
    assert (Hsame : forall a, In a (alerts (db w)) ->
                      Alert.id a = Alert.id alert -> a = alert)
      by (intros a Ha Heq; apply (unique_by Alert.id (alerts (db w))); assumption).
    unfold update_rows. rewrite Hid.
    split; [reflexivity|]. split; [reflexivity|].
    split; [|split; [|split; [|split; [|split; reflexivity]]]].
    + rewrite map_map. apply map_ext_in. intros a Ha.
      destruct (Z.eqb_spec (Alert.id a) (Alert.id alert)); [|reflexivity].
      rewrite Hid. symmetry. assumption.
    + rewrite map_map. apply map_ext_in. intros a Ha.
      destruct (Z.eqb_spec (Alert.id a) (Alert.id alert)) as [Heq|]; [|reflexivity].
      rewrite Huid, (Hsame a Ha Heq). reflexivity.
    + intros a Ha Hne. apply in_map_iff. exists a. split; [|exact Ha].
      destruct (Z.eqb_spec (Alert.id a) (Alert.id alert)) as [Heq|]; [|reflexivity].
      exfalso. apply Hne, Hsame; assumption.
    + apply in_map_iff. exists alert. split; [|exact Hin].
      rewrite Z.eqb_refl. reflexivity.
Qed.

Lemma update_alert_outcomes_witness :
  update_alert (AlertUpdate.mk (Some 50%float)) bob sample_world
  = (Raise (HTTPException 404 "Alert not found"), sample_world)
  /\ fst (update_alert (AlertUpdate.mk (Some 50%float)) alice sample_world)
     = Return (Alert.mk 1 50 1)
  /\ alerts (db (snd (update_alert (AlertUpdate.mk (Some 50%float)) alice sample_world)))
     = [Alert.mk 1 50 1].
Proof.
  destruct (update_alert_outcomes sample_world bob (AlertUpdate.mk (Some 50%float)))
    as [Hnone _].
  destruct (update_alert_outcomes sample_world alice (AlertUpdate.mk (Some 50%float)))
    as [_ Hsome].
  split.
  - apply Hnone. intros a [<-|[]]. vm_compute. discriminate.
  - assert (Hnd : NoDup (map Alert.id (alerts (db sample_world))))
      by (repeat constructor; simpl; intuition discriminate).
    destruct (Hsome alice_alert eq_refl Hnd) as (Hret & Htable & _).
    split; [exact Hret | exact Htable].
Defined.

Lemma update_alert_runs
  (w : World) (current_user : User.t) (alert_data : AlertUpdate.t) (alert : Alert.t) :
  find (fun a => Alert.user_id a =? User.id current_user) (alerts (db w)) = Some alert ->
  update_alert alert_data current_user w
  = (Return (apply_update alert_data alert),
     mkWorld (with_alerts (update_rows Alert.id (apply_update alert_data alert)) (db w))
             (sent w) (scheduled w ++ [CheckThresholds (User.id current_user)])).
Proof. intros Hfind. unfold update_alert. run. rewrite Hfind. reflexivity. Qed.

Lemma delete_alert_runs (w : World) (current_user : User.t) (alert : Alert.t) :
  find (fun a => Alert.user_id a =? User.id current_user) (alerts (db w)) = Some alert ->
  delete_alert current_user w
  = (Return "Alert deleted successfully",
     mkWorld (with_alerts (delete_rows Alert.id [alert]) (db w)) (sent w) (scheduled w)).
Proof. intros Hfind. unfold delete_alert. run. rewrite Hfind. reflexivity. Qed.

Lemma in_without_key {A} (key : A -> Z) (v : A) (table : list A) (a : A) :
  NoDup (map key table) -> In v table ->
  (In a (delete_rows key [v] table) <-> In a table /\ a <> v).
Proof.
  intros Hnd Hv. rewrite delete_one, filter_In. split; intros [Ha Hb]; split; try exact Ha.
  - intros ->. rewrite Z.eqb_refl in Hb. discriminate.
  - apply negb_true_iff, Z.eqb_neq. intros Heq. apply Hb.
    apply (unique_by key table); assumption.
Qed.

(** X3.  [update_alert] does not run the duplicate check of
    [create_alert]: when the user has another alert besides the first one,
    a request for that other alert's threshold is accepted and leaves the
    user with two alerts of one threshold. *)
Theorem update_alert_can_duplicate
  (w : World) (current_user : User.t) (alert other : Alert.t) :
  find (fun a => Alert.user_id a =? User.id current_user) (alerts (db w)) = Some alert ->
  NoDup (map Alert.id (alerts (db w))) ->
  In other (alerts (db w)) ->
  Alert.user_id other = User.id current_user ->
  other <> alert ->
  let request := AlertUpdate.mk (Some (Alert.threshold other)) in
  let updated := Alert.mk (Alert.id alert) (Alert.threshold other) (User.id current_user) in
  let w' := snd (update_alert request current_user w) in
  fst (update_alert request current_user w) = Return updated
  /\ In updated (alerts (db w'))
  /\ In other (alerts (db w'))
  /\ updated <> other
  /\ ~ thresholds_distinct (db w').
Proof.
  intros Hfind Hnd Hother Howner Hne. cbv zeta.
  destruct (first_alert_of _ _ _ Hfind) as [Hin Hu].
  rewrite (update_alert_runs _ _ _ _ Hfind). unfold apply_update. simpl.
  rewrite Hu.
  set (updated := Alert.mk (Alert.id alert) (Alert.threshold other) (User.id current_user)).
  assert (Hids : Alert.id other <> Alert.id alert).
  { intros Heq. apply Hne. apply (unique_by Alert.id (alerts (db w))); assumption. }
  assert (Hin1 : In updated (update_rows Alert.id updated (alerts (db w)))).
  { unfold update_rows. apply in_map_iff. exists alert. split; [|exact Hin].
    simpl. rewrite Z.eqb_refl. reflexivity. }
  assert (Hin2 : In other (update_rows Alert.id updated (alerts (db w)))).
  { unfold update_rows. apply in_map_iff. exists other. split; [|exact Hother].
    simpl. destruct (Z.eqb_spec (Alert.id other) (Alert.id alert)); [contradiction|].
    reflexivity. }
  assert (Hdiff : updated <> other).
  { intros Heq. apply Hids. rewrite <- Heq. reflexivity. }
  split; [reflexivity|]. split; [exact Hin1|]. split; [exact Hin2|].
  split; [exact Hdiff|].
  unfold thresholds_distinct. simpl. intros Hdistinct. apply Hdiff.
  apply (unique_by (fun a => (Alert.user_id a, Alert.threshold a))
                   (update_rows Alert.id updated (alerts (db w)))); try assumption.
  simpl. rewrite Howner. reflexivity.
Qed.

Lemma update_alert_can_duplicate_witness :
  fst (update_alert (AlertUpdate.mk (Some 250%float)) alice two_alerts_world)
  = Return (Alert.mk 1 250 1)
  /\ ~ thresholds_distinct
         (db (snd (update_alert (AlertUpdate.mk (Some 250%float)) alice two_alerts_world))).
Proof.
  assert (Hnd : NoDup (map Alert.id (alerts (db two_alerts_world))))
    by (repeat constructor; simpl; intuition discriminate).
  assert (Hin : In (Alert.mk 2 250 1) (alerts (db two_alerts_world)))
    by (right; left; reflexivity).
  assert (Hne : Alert.mk 2 250 1 <> alice_alert) by discriminate.
  pose proof (update_alert_can_duplicate two_alerts_world alice alice_alert
                (Alert.mk 2 250 1) eq_refl Hnd Hin eq_refl Hne) as H.
  cbv zeta in H. destruct H as (Hret & _ & _ & _ & Hdup).
  split; [exact Hret | exact Hdup].
Defined.

(** X4.  [delete_alert] answers 404 and writes nothing for a user without
    alerts.  Otherwise, in a table with unique ids, it removes the user's
    first alert and nothing else, so the table shrinks by one row; unlike
    the other alert handlers it schedules no threshold check. *)
Theorem delete_alert_outcomes (w : World) (current_user : User.t) :
  ((forall a, In a (alerts (db w)) -> Alert.user_id a <> User.id current_user) ->
   delete_alert current_user w = (Raise (HTTPException 404 "Alert not found"), w))
  /\ (forall alert,
        find (fun a => Alert.user_id a =? User.id current_user) (alerts (db w))
        = Some alert ->
        NoDup (map Alert.id (alerts (db w))) ->
        let w' := snd (delete_alert current_user w) in
        fst (delete_alert current_user w) = Return "Alert deleted successfully"
        /\ (forall a, In a (alerts (db w')) <-> In a (alerts (db w)) /\ a <> alert)
        /\ S (List.length (alerts (db w'))) = List.length (alerts (db w))
        /\ scheduled w' = scheduled w
        /\ sent w' = sent w
        /\ notifications (db w') = notifications (db w)).
Proof.
  split.
  - intros Hnone. unfold delete_alert. run.
    rewrite (proj2 (no_alert_of _ _) Hnone). reflexivity.
  - intros alert Hfind Hnd. cbv zeta.
    destruct (first_alert_of _ _ _ Hfind) as [Hin _].
    rewrite (delete_alert_runs _ _ _ Hfind). simpl.
    split; [reflexivity|]. split; [|split; [|repeat split]].
    + intros a. apply in_without_key; assumption.
    + rewrite delete_one. apply length_without_key; assumption.
Qed.

Lemma delete_alert_outcomes_witness :
  delete_alert bob sample_world = (Raise (HTTPException 404 "Alert not found"), sample_world)
  /\ fst (delete_alert alice two_alerts_world) = Return "Alert deleted successfully"
  /\ S (List.length (alerts (db (snd (delete_alert alice two_alerts_world))))) = 2%nat.
Proof.
  destruct (delete_alert_outcomes sample_world bob) as [Hnone _].
  destruct (delete_alert_outcomes two_alerts_world alice) as [_ Hsome].
  split.
  - apply Hnone. intros a [<-|[]]. vm_compute. discriminate.
  - assert (Hnd : NoDup (map Alert.id (alerts (db two_alerts_world))))
      by (repeat constructor; simpl; intuition discriminate).
    destruct (Hsome alice_alert eq_refl Hnd) as (Hret & _ & Hlen & _).
    split; [exact Hret | exact Hlen].
Defined.

(** X5.  The refusal of [create_alert] advises to delete the alert first,
    but [delete_alert] removes the user's first alert, whatever its
    threshold.  After it, a request for threshold t is still refused with
    400 when another alert of the user carries t, and gets past the
    duplicate check when the deleted alert was the user's only one with t:
    the handler then stores a new alert with t and returns it. *)
Theorem delete_alert_then_create
  (w : World) (current_user : User.t) (alert_data : AlertCreate.t) (first : Alert.t) :
  find (fun a => Alert.user_id a =? User.id current_user) (alerts (db w)) = Some first ->
  NoDup (map Alert.id (alerts (db w))) ->
  let w1 := snd (delete_alert current_user w) in
  ((exists other,
      In other (alerts (db w)) /\ other <> first
      /\ Alert.user_id other = User.id current_user
      /\ (Alert.threshold other =? AlertCreate.threshold alert_data)%float = true) ->
   exists detail,
     create_alert alert_data current_user w1 = (Raise (HTTPException 400 detail), w1))
  /\ ((forall a, In a (alerts (db w)) ->
         Alert.user_id a = User.id current_user ->
         (Alert.threshold a =? AlertCreate.threshold alert_data)%float = true ->
         a = first) ->
      exists alert w2,
        create_alert alert_data current_user w1 = (Return alert, w2)
        /\ Alert.threshold alert = AlertCreate.threshold alert_data
        /\ Alert.user_id alert = User.id current_user
        /\ alerts (db w2) = alerts (db w1) ++ [alert]).
Proof.
  intros Hfind Hnd. cbv zeta.
  destruct (first_alert_of _ _ _ Hfind) as [Hin _].
  rewrite (delete_alert_runs _ _ _ Hfind). cbn [snd].
  set (w1 := mkWorld _ _ _).
  assert (Hleft : forall a, In a (alerts (db w1)) <-> In a (alerts (db w)) /\ a <> first)
    by (intros a; apply in_without_key; assumption).
  split.
  - intros (other & Hother & Hne & Hu & Ht).
    apply (create_alert_duplicate w1 current_user alert_data other); try assumption.
    apply Hleft. split; assumption.
  - intros Honly.
    destruct (create_alert_cases w1 current_user alert_data)
      as [[(a & Ha & Hu & Ht) _]|[_ Hrun]].
    + exfalso. apply Hleft in Ha. destruct Ha as [Ha Hne].
      apply Hne, Honly; assumption.
    + do 2 eexists. split; [exact Hrun|]. split; [reflexivity|]. split; reflexivity.
Qed.

Lemma delete_alert_then_create_witness :
  (exists detail,
     create_alert (AlertCreate.mk 250) alice (snd (delete_alert alice two_alerts_world))
     = (Raise (HTTPException 400 detail), snd (delete_alert alice two_alerts_world)))
  /\ (exists alert w2,
        create_alert (AlertCreate.mk 100) alice (snd (delete_alert alice two_alerts_world))
        = (Return alert, w2)).
Proof.
  assert (Hnd : NoDup (map Alert.id (alerts (db two_alerts_world))))
    by (repeat constructor; simpl; intuition discriminate).
  split.
  - apply (delete_alert_then_create two_alerts_world alice (AlertCreate.mk 250)
             alice_alert eq_refl Hnd).
    exists (Alert.mk 2 250 1).
    split; [right; left; reflexivity|]. split; [discriminate|].
    split; reflexivity.
  - destruct (delete_alert_then_create two_alerts_world alice (AlertCreate.mk 100)
                alice_alert eq_refl Hnd) as [_ H].
    destruct H as (alert & w2 & Hrun & _).
    + intros a [<-|[<-|[]]] _ Ht; [reflexivity | vm_compute in Ht; discriminate].
    + exists alert, w2. exact Hrun.
Defined.

(** X6.  After an accepted [create_alert], [get_alerts] of the same user
    lists the alerts the user had followed by the new one, and the list of
    any other user is what it was. *)
Theorem create_alert_then_get
  (w : World) (current_user other_user : User.t) (alert_data : AlertCreate.t) :
  (forall a, In a (alerts (db w)) ->
     ~ (Alert.user_id a = User.id current_user
        /\ (Alert.threshold a =? AlertCreate.threshold alert_data)%float = true)) ->
  let alert :=
    Alert.mk (next_id (map Alert.id (alerts (db w))))
             (AlertCreate.threshold alert_data) (User.id current_user) in
  let w1 := snd (create_alert alert_data current_user w) in
  fst (get_alerts current_user w1)
  = Return (filter (fun a => Alert.user_id a =? User.id current_user) (alerts (db w))
              ++ [alert])
  /\ (User.id other_user <> User.id current_user ->
      fst (get_alerts other_user w1) = fst (get_alerts other_user w)).
Proof.
  intros Hfree. cbv zeta.
  destruct (create_alert_cases w current_user alert_data)
    as [[(a & Ha & Hu & Ht) _]|[_ ->]].
  - exfalso. apply (Hfree a Ha). auto.
  - unfold get_alerts. run. rewrite !filter_app. simpl.
    rewrite Z.eqb_refl. split; [reflexivity|].
    intros Hne.
    destruct (Z.eqb_spec (User.id current_user) (User.id other_user)) as [Heq|_].
    + exfalso. apply Hne. symmetry. exact Heq.
    + rewrite app_nil_r. reflexivity.
Qed.

Lemma create_alert_then_get_witness :
  fst (get_alerts alice (snd (create_alert (AlertCreate.mk 250) alice sample_world)))
  = Return [alice_alert; Alert.mk 2 250 1]
  /\ fst (get_alerts bob (snd (create_alert (AlertCreate.mk 250) alice sample_world)))
     = Return [].
Proof.
  assert (Hfree : forall a, In a (alerts (db sample_world)) ->
                    ~ (Alert.user_id a = User.id alice
                       /\ (Alert.threshold a
                           =? AlertCreate.threshold (AlertCreate.mk 250))%float = true))
    by (intros a [<-|[]] [_ H]; vm_compute in H; discriminate).
  pose proof (create_alert_then_get sample_world alice bob (AlertCreate.mk 250) Hfree)
    as H.
  cbv zeta in H. destruct H as [Hown Hother].
  split; [exact Hown|]. rewrite Hother; [reflexivity | discriminate].
Defined.

(** ** The evaluators *)

Lemma evaluator_step (msg : M (option string)) (user_id : Z) (w : World) :
  (forall w', snd (msg w') = w') ->
  let run :=
    (m <- msg ;;
     match m with
     | Some message => notify_unless_unread user_id message
     | None => ret tt
     end) in
  snd (run w) = w
  \/ exists message,
       fst (msg w) = Return (Some message)
       /\ existing_notification (db w) user_id message = None
       /\ run w = (Return tt, notified w user_id message).
Proof.
  intros Hreads. cbv zeta. unfold bind.
  pose proof (Hreads w) as Hw.
  destruct (msg w) as [[[m|]|e] w']; simpl in Hw; subst w'; simpl; auto.
  destruct (existing_notification (db w) user_id m) eqn:E.
  - left. rewrite notify_duplicate by congruence. reflexivity.
  - right. exists m. split; [reflexivity|]. split; [exact E|].
    apply notify_fresh, E.
Qed.

Lemma notified_keeps_invariants (w : World) (user_id : Z) (message : string) :
  existing_notification (db w) user_id message = None ->
  NoDup (map Notification.id (notifications (db w))) ->
  unread_distinct (db w) ->
  NoDup (map Notification.id (notifications (db (notified w user_id message))))
  /\ unread_distinct (db (notified w user_id message)).
Proof.
  intros Hnone Hids Hunread. unfold unread_distinct, notified. simpl.
  rewrite filter_app, !map_app. simpl. split.
  - apply NoDup_snoc; [exact Hids | apply next_id_not_in].
  - apply NoDup_snoc; [exact Hunread|].
    intros Hin. apply in_map_iff in Hin. destruct Hin as (n & Heq & Hn).
    apply filter_In in Hn. destruct Hn as [Hn Hr]. inversion Heq.
    apply (proj1 (existing_notification_none _ _ _) Hnone n Hn).
    repeat split; try assumption.
    destruct (Notification.is_read n); [discriminate | reflexivity].
Qed.

(** X7.  A run of [check_thresholds] or of [check_budget] either leaves
    the whole state as it was, or appends one unread Notification row for
    the user, with a fresh id and a text no unread notification of the user
    had, and pushes that text to that user; it writes no other table and
    schedules nothing. *)
Theorem evaluators_write_one_notification (str format_2f : amount -> string)
  (w : World) (user_id : Z) :
  (snd (check_thresholds str format_2f user_id w) = w
   \/ exists message,
        existing_notification (db w) user_id message = None
        /\ check_thresholds str format_2f user_id w = (Return tt, notified w user_id message))
  /\ (snd (check_budget str user_id w) = w
      \/ exists message,
           existing_notification (db w) user_id message = None
           /\ check_budget str user_id w = (Return tt, notified w user_id message)).
Proof.
  split.
  - destruct (evaluator_step (threshold_message str format_2f user_id) user_id w
                (threshold_message_reads str format_2f user_id)) as [H|(m & _ & Hnone & Hrun)].
    + left. exact H.
    + right. exists m. split; assumption.
  - destruct (evaluator_step (budget_message str user_id) user_id w
                (budget_message_reads str user_id)) as [H|(m & _ & Hnone & Hrun)].
    + left. exact H.
    + right. exists m. split; assumption.
Qed.

(** X8.  The evaluators keep the Notification table well-formed: when ids
    are unique and no user has two unread notifications with one text,
    both still hold after [check_thresholds] and after [check_budget]. *)
Theorem evaluators_keep_notifications_distinct (str format_2f : amount -> string)
  (w : World) (user_id : Z) :
  NoDup (map Notification.id (notifications (db w))) ->
  unread_distinct (db w) ->
  (NoDup (map Notification.id (notifications (db (snd (check_thresholds str format_2f user_id w)))))
   /\ unread_distinct (db (snd (check_thresholds str format_2f user_id w))))
  /\ (NoDup (map Notification.id (notifications (db (snd (check_budget str user_id w)))))
      /\ unread_distinct (db (snd (check_budget str user_id w)))).
Proof.
  intros Hids Hunread. split.
  - destruct (evaluator_step (threshold_message str format_2f user_id) user_id w
                (threshold_message_reads str format_2f user_id)) as [H|(m & _ & Hnone & Hrun)].
    + unfold check_thresholds. rewrite H. split; assumption.
    + unfold check_thresholds. rewrite Hrun. cbn [snd].
      apply notified_keeps_invariants; assumption.
  - destruct (evaluator_step (budget_message str user_id) user_id w
                (budget_message_reads str user_id)) as [H|(m & _ & Hnone & Hrun)].
    + unfold check_budget. rewrite H. split; assumption.
    + unfold check_budget. rewrite Hrun. cbn [snd].
      apply notified_keeps_invariants; assumption.
Qed.

Lemma evaluators_keep_notifications_distinct_witness :
  unread_distinct (db (snd (check_thresholds sample_str sample_2f 1 warned_world)))
  /\ unread_distinct (db (snd (check_budget sample_str 1 warned_world))).
Proof.
  assert (Hids : NoDup (map Notification.id (notifications (db warned_world))))
    by (repeat constructor; simpl; intuition discriminate).
  assert (Hunread : unread_distinct (db warned_world))
    by (unfold unread_distinct; repeat constructor; simpl; intuition discriminate).
  destruct (evaluators_keep_notifications_distinct sample_str sample_2f warned_world 1 Hids Hunread)
    as [[_ H1] [_ H2]].
  split; assumption.
Defined.

Lemma find_is_first {A} (p : A -> bool) (l : list A) :
  find p l = hd_error (filter p l).
Proof.
  induction l as [|a l IH]; simpl; [reflexivity|].
  destruct (p a); [reflexivity | exact IH].
Qed.

(** X9.  What an evaluator decides for a user depends on that user's rows
    only: two states that agree on the user's alerts and expenses give the
    same answer of [threshold_message], and two states that agree on the
    user's budgets, expenses and User row give the same answer of
    [budget_message], whatever the rows of other users. *)
Theorem evaluators_read_own_rows (str format_2f : amount -> string) (user_id : Z) (w1 w2 : World) :
  filter (fun e => Expense.user_id e =? user_id) (expenses (db w1))
  = filter (fun e => Expense.user_id e =? user_id) (expenses (db w2)) ->
  (filter (fun a => Alert.user_id a =? user_id) (alerts (db w1))
   = filter (fun a => Alert.user_id a =? user_id) (alerts (db w2)) ->
   fst (threshold_message str format_2f user_id w1)
   = fst (threshold_message str format_2f user_id w2))
  /\ (filter (fun b => Budget.user_id b =? user_id) (budgets (db w1))
      = filter (fun b => Budget.user_id b =? user_id) (budgets (db w2)) ->
      filter (fun u => User.id u =? user_id) (users (db w1))
      = filter (fun u => User.id u =? user_id) (users (db w2)) ->
      fst (budget_message str user_id w1) = fst (budget_message str user_id w2)).
Proof.
  intros He. split.
  - intros Ha. unfold threshold_message. run.
    rewrite !find_is_first, Ha, He.
    destruct (hd_error _); simpl; [|reflexivity].
    destruct (truthy _); reflexivity.
  - intros Hb Hu. unfold budget_message. run.
    rewrite !find_is_first, Hb.
    destruct (hd_error (filter _ (budgets (db w2)))) as [b|] eqn:Eb; simpl;
      [|reflexivity].
    assert (Hbu : Budget.user_id b = user_id).
    { destruct (filter (fun b0 => Budget.user_id b0 =? user_id) (budgets (db w2)))
        as [|b0 l] eqn:Ef; [discriminate|].
      simpl in Eb. inversion Eb; subst b0.
      assert (Hin : In b (filter (fun b0 => Budget.user_id b0 =? user_id)
                                 (budgets (db w2))))
        by (rewrite Ef; left; reflexivity).
      apply filter_In in Hin. apply Z.eqb_eq, Hin. }
    unfold Budget_owner. rewrite !find_is_first, Hbu, Hu.
    destruct (hd_error (filter _ (users (db w2)))) as [o|] eqn:Eo; simpl;
      [|reflexivity].
    assert (Hou : User.id o = user_id).
    { destruct (filter (fun u => User.id u =? user_id) (users (db w2)))
        as [|o0 l] eqn:Ef; [discriminate|].
      simpl in Eo. inversion Eo; subst o0.
      assert (Hin : In o (filter (fun u => User.id u =? user_id) (users (db w2))))
        by (rewrite Ef; left; reflexivity).
      apply filter_In in Hin. apply Z.eqb_eq, Hin. }
    unfold owner_amounts_in_range, User_expenses. rewrite Hou, He.
    destruct (_ <? _)%float; reflexivity.
Qed.

Lemma evaluators_read_own_rows_witness :
  fst (threshold_message sample_str sample_2f 1 busier_world)
  = fst (threshold_message sample_str sample_2f 1 sample_world)
  /\ fst (budget_message sample_str 1 busier_world)
     = fst (budget_message sample_str 1 sample_world).
Proof.
  destruct (evaluators_read_own_rows sample_str sample_2f 1 busier_world sample_world
              eq_refl) as [Ht Hb].
  split; [apply Ht | apply Hb]; reflexivity.
Defined.

(** ** Registration and login *)

Lemma register_cases
  (hash_password : string -> string) (today : date) (user : UserCreate.t) (w : World) :
  let new_user :=
    User.mk (next_id (map User.id (users (db w))))
            (UserCreate.username user) (UserCreate.email user)
            (hash_password (UserCreate.password user)) in
  ((exists u, In u (users (db w))
              /\ (User.username u = UserCreate.username user
                  \/ User.email u = UserCreate.email user))
   /\ exists detail,
        register hash_password today user w = (Raise (HTTPException 400 detail), w))
  \/ ((forall u, In u (users (db w)) ->
         User.username u <> UserCreate.username user
         /\ User.email u <> UserCreate.email user)
      /\ exists w',
           register hash_password today user w
           = (Raise (AttributeError "created_at"), w')
           /\ users (db w') = users (db w) ++ [new_user]
           /\ categories (db w')
              = categories (db w)
                  ++ [Category.mk (next_id (map Category.id (categories (db w))))
                                  "Debt" "For all debts" (User.id new_user)]
           /\ expenses (db w') = expenses (db w)
           /\ budgets (db w') = budgets (db w)
           /\ alerts (db w') = alerts (db w)
           /\ notifications (db w') = notifications (db w)
           /\ sent w' = sent w /\ scheduled w' = scheduled w).
Proof.
  cbv zeta. unfold register. run.
  destruct (find (fun u => String.eqb (User.username u) (UserCreate.username user))
                 (users (db w))) as [u|] eqn:Ename.
  { left. apply find_some in Ename. destruct Ename as [Hin Heq].
    apply String.eqb_eq in Heq.
    split; [exists u; auto | eexists; reflexivity]. }
  destruct (find (fun u => String.eqb (User.email u) (UserCreate.email user))
                 (users (db w))) as [u|] eqn:Email.
  { left. apply find_some in Email. destruct Email as [Hin Heq].
    apply String.eqb_eq in Heq.
    split; [exists u; auto | eexists; reflexivity]. }
  right.
  assert (Hfree : forall u, In u (users (db w)) ->
                    User.username u <> UserCreate.username user
                    /\ User.email u <> UserCreate.email user).
  { intros u Hu. split; apply String.eqb_neq.
    - exact (find_none _ _ Ename u Hu).
    - exact (find_none _ _ Email u Hu). }
  split; [exact Hfree|].
  simpl. rewrite find_snoc.
  replace (find _ (users (db w))) with (@None User.t)
    by (symmetry; apply find_none_iff; intros u Hu; simpl;
        apply andb_false_iff; left; apply String.eqb_neq, (Hfree u Hu)).
  simpl. rewrite !String.eqb_refl. simpl.
  destruct (find _ (category_budgets (db w))); simpl;
    eexists; repeat split; reflexivity.
Qed.

(** X10.  [register] keeps the primary key and the two unique columns of
    the User table: when ids, usernames and emails are pairwise distinct
    before a request, they are after it, whether it was refused or wrote
    its rows. *)
Theorem register_keeps_users_unique
  (hash_password : string -> string) (today : date) (user : UserCreate.t) (w : World) :
  users_unique (db w) ->
  users_unique (db (snd (register hash_password today user w))).
Proof.
  intros (Hids & Hnames & Hemails).
  destruct (register_cases hash_password today user w)
    as [[_ [detail ->]]|[Hfree (w' & -> & Husers & _)]].
  - repeat split; assumption.
  - unfold users_unique. cbn [snd]. rewrite Husers, !map_app. simpl.
    repeat split; apply NoDup_snoc; try assumption.
    + apply next_id_not_in.
    + intros Hin. apply in_map_iff in Hin. destruct Hin as (u & Heq & Hu).
      exact (proj1 (Hfree u Hu) Heq).
    + intros Hin. apply in_map_iff in Hin. destruct Hin as (u & Heq & Hu).
      exact (proj2 (Hfree u Hu) Heq).
Qed.

Lemma sample_users_unique : users_unique sample_db.
Proof.
  unfold users_unique. repeat split; repeat constructor; simpl; intuition discriminate.
Qed.

Lemma register_keeps_users_unique_witness :
  users_unique
    (db (snd (register sample_hash (mkdate 2024 2 14)
                       (UserCreate.mk "carol" "c@x.com" "pw") sample_world))).
Proof.
  apply (register_keeps_users_unique sample_hash (mkdate 2024 2 14)
           (UserCreate.mk "carol" "c@x.com" "pw") sample_world).
  exact sample_users_unique.
Defined.

(** X11.  After a registration under a free username and email, whose
    rows are committed, a second request with the same username, or with
    the same email, is refused with status 400 and writes nothing, whatever
    its other fields. *)
Theorem register_twice_conflicts
  (hash_password : string -> string) (today today' : date)
  (user again : UserCreate.t) (w : World) :
  (forall u, In u (users (db w)) ->
     User.username u <> UserCreate.username user
     /\ User.email u <> UserCreate.email user) ->
  UserCreate.username again = UserCreate.username user
  \/ UserCreate.email again = UserCreate.email user ->
  let w1 := snd (register hash_password today user w) in
  exists detail,
    register hash_password today' again w1 = (Raise (HTTPException 400 detail), w1).
Proof.
  intros Hfree Hsame. cbv zeta.
  destruct (register_cases hash_password today user w)
    as [[(u & Hu & Hdup) _]|[_ (w' & -> & Husers & _)]].
  - exfalso. destruct (Hfree u Hu) as [Hn He]. destruct Hdup; contradiction.
  - cbn [snd].
    destruct (register_cases hash_password today' again w')
      as [[_ Hraise]|[Hfree' _]]; [exact Hraise|].
    exfalso.
    destruct (Hfree' (User.mk (next_id (map User.id (users (db w))))
                              (UserCreate.username user) (UserCreate.email user)
                              (hash_password (UserCreate.password user))))
      as [Hn He].
    + rewrite Husers. apply in_or_app. right. left. reflexivity.
    + simpl in Hn, He. destruct Hsame as [Heq|Heq]; symmetry in Heq; contradiction.
Qed.

Lemma register_twice_conflicts_witness :
  exists detail,
    register sample_hash (mkdate 2024 3 1) (UserCreate.mk "carol" "other@x.com" "pw2")
      (snd (register sample_hash (mkdate 2024 2 14)
                     (UserCreate.mk "carol" "c@x.com" "pw") sample_world))
    = (Raise (HTTPException 400 detail),
       snd (register sample_hash (mkdate 2024 2 14)
                     (UserCreate.mk "carol" "c@x.com" "pw") sample_world)).
Proof.
  apply (register_twice_conflicts sample_hash (mkdate 2024 2 14) (mkdate 2024 3 1)
           (UserCreate.mk "carol" "c@x.com" "pw")
           (UserCreate.mk "carol" "other@x.com" "pw2") sample_world).
  - intros u [<-|[<-|[]]]; split; vm_compute; discriminate.
  - left. reflexivity.
Defined.

(** X12.  A registered user can log in: after a registration under a free
    username and email, whose rows are committed, [user_login] with the
    registered email and password, on a password service that verifies
    what it hashed, answers with tokens for the registered username and
    with the new user's id, and writes nothing. *)
Theorem register_then_login
  (verify_password : string -> string -> bool)
  (hash_password : string -> string)
  (create_access_token create_refresh_token : payload -> string)
  (today : date) (user : UserCreate.t) (login_name : string) (w : World) :
  verify_password (UserCreate.password user) (hash_password (UserCreate.password user))
  = true ->
  (forall u, In u (users (db w)) ->
     User.username u <> UserCreate.username user
     /\ User.email u <> UserCreate.email user) ->
  let w1 := snd (register hash_password today user w) in
  user_login verify_password create_access_token create_refresh_token
    (UserLogin.mk login_name (UserCreate.email user) (UserCreate.password user)) w1
  = (Return (LoginResponse.mk
               (create_access_token [("sub", UserCreate.username user)])
               (create_refresh_token [("sub", UserCreate.username user)])
               "bearer" (UserCreate.username user)
               (next_id (map User.id (users (db w))))),
     w1).
Proof.
  intros Hverify Hfree. cbv zeta.
  destruct (register_cases hash_password today user w)
    as [[(u & Hu & Hdup) _]|[_ (w' & -> & Husers & _)]].
  - exfalso. destruct (Hfree u Hu) as [Hn He]. destruct Hdup; contradiction.
  - cbn [snd]. unfold user_login. run. rewrite Husers, find_snoc.
    replace (find _ (users (db w))) with (@None User.t)
      by (symmetry; apply find_none_iff; intros u Hu; simpl;
          apply String.eqb_neq, (Hfree u Hu)).
    simpl. rewrite String.eqb_refl. simpl. rewrite Hverify. reflexivity.
Qed.

Lemma register_then_login_witness :
  fst (user_login sample_verify sample_encode sample_encode
         (UserLogin.mk "" "c@x.com" "pw")
         (snd (register sample_hash (mkdate 2024 2 14)
                        (UserCreate.mk "carol" "c@x.com" "pw") sample_world)))
  = Return (LoginResponse.mk "access-carol" "access-carol" "bearer" "carol" 3).
Proof.
  assert (Hfree : forall u, In u (users (db sample_world)) ->
                    User.username u <> "carol" /\ User.email u <> "c@x.com")
    by (intros u [<-|[<-|[]]]; split; vm_compute; discriminate).
  exact (f_equal fst
           (register_then_login sample_verify sample_hash sample_encode sample_encode
              (mkdate 2024 2 14) (UserCreate.mk "carol" "c@x.com" "pw") ""
              sample_world eq_refl Hfree)).
Defined.

(** ** Tokens and protected routes *)

(** X13.  [get_current_user] never writes.  It returns a user only when the
    token verifies and names, as its subject, the username of that row of
    the User table; every refusal is the same 401.  A verified token whose
    subject is the username of some row is accepted. *)
Theorem get_current_user_outcomes
  (verify_access_token : string -> option payload) (token : string) (w : World) :
  snd (get_current_user verify_access_token token w) = w
  /\ (forall u,
        fst (get_current_user verify_access_token token w) = Return u ->
        In u (users (db w))
        /\ exists claims,
             verify_access_token token = Some claims
             /\ dict_get "sub" claims = Some (User.username u))
  /\ (forall e,
        fst (get_current_user verify_access_token token w) = Raise e ->
        e = HTTPException 401 "Could not validate credentials")
  /\ (forall claims u,
        verify_access_token token = Some claims ->
        dict_get "sub" claims = Some (User.username u) ->
        In u (users (db w)) ->
        exists u',
          get_current_user verify_access_token token w = (Return u', w)
          /\ User.username u' = User.username u).
Proof.
  unfold get_current_user.
  destruct (verify_access_token token) as [claims|] eqn:Ev.
  2: { run. repeat split; try discriminate.
       intros e He. inversion He. reflexivity. }
  destruct (dict_get "sub" claims) as [name|] eqn:Es.
  2: { run. split; [reflexivity|]. split; [discriminate|]. split.
       - intros e He. inversion He. reflexivity.
       - intros claims' u Hc Hs. inversion Hc; subst claims'. congruence. }
  run.
  destruct (find (fun u => String.eqb (User.username u) name) (users (db w)))
    as [row|] eqn:Ef; simpl.
  - apply find_some in Ef. destruct Ef as [Hin Heq]. apply String.eqb_eq in Heq.
    split; [reflexivity|]. split; [|split].
    + intros u Hu. inversion Hu; subst u. split; [exact Hin|].
      exists claims. split; [reflexivity|]. rewrite Heq. exact Es.
    + intros e He. discriminate.
    + intros claims' u Hc Hs _. inversion Hc; subst claims'.
      exists row. split; [reflexivity|]. congruence.
  - split; [reflexivity|]. split; [|split].
    + intros u Hu. discriminate.
    + intros e He. inversion He. reflexivity.
    + intros claims' u Hc Hs Hin. exfalso. inversion Hc; subst claims'.
      apply (find_none _ _ Ef) in Hin. simpl in Hin.
      assert (name = User.username u) by congruence. subst name.
      rewrite String.eqb_refl in Hin. discriminate.
Qed.

Lemma get_current_user_outcomes_witness :
  (exists u',
     get_current_user sample_access_decode "access-alice" sample_world
     = (Return u', sample_world)
     /\ User.username u' = "alice")
  /\ snd (get_current_user sample_access_decode "access-carol" sample_world)
     = sample_world.
Proof.
  destruct (get_current_user_outcomes sample_access_decode "access-alice" sample_world)
    as (_ & _ & _ & Hok).
  destruct (get_current_user_outcomes sample_access_decode "access-carol" sample_world)
    as (Hsame & _).
  split; [|exact Hsame].
  exact (Hok [("sub", "alice")] alice eq_refl eq_refl (or_introl eq_refl)).
Defined.

(** X14.  The access token of a successful [user_login] authenticates its
    user: on a token service whose verification accepts the tokens it
    issued for the usernames of the table and reads back their subject,
    among whatever other claims it adds, and with unique usernames,
    [get_current_user] returns the very row whose email and password were
    checked, and the protected route greets that username. *)
Theorem login_then_authenticate
  (verify_password : string -> string -> bool)
  (create_access_token create_refresh_token : payload -> string)
  (verify_access_token : string -> option payload)
  (user : UserLogin.t) (w : World) (response : LoginResponse.t) :
  (forall u, In u (users (db w)) ->
     exists claims,
       verify_access_token (create_access_token [("sub", User.username u)])
       = Some claims
       /\ dict_get "sub" claims = Some (User.username u)) ->
  NoDup (map User.username (users (db w))) ->
  fst (user_login verify_password create_access_token create_refresh_token user w)
  = Return response ->
  exists u,
    In u (users (db w))
    /\ User.email u = UserLogin.email user
    /\ verify_password (UserLogin.password user) (User.hashed_password u) = true
    /\ LoginResponse.username response = User.username u
    /\ LoginResponse.user_id response = User.id u
    /\ get_current_user verify_access_token (LoginResponse.access_token response) w
       = (Return u, w)
    /\ protected verify_access_token (LoginResponse.access_token response)
         protected_route w
       = (Return ("Hello, " ++ User.username u
                    ++ "! You have access to this protected route.")%string, w).
Proof.
  intros Hcodec Hnd Hlogin. unfold user_login in Hlogin. revert Hlogin. run.
  destruct (find (fun u => String.eqb (User.email u) (UserLogin.email user))
                 (users (db w))) as [u|] eqn:Ef; [|discriminate].
  apply find_some in Ef. destruct Ef as [Hin Hemail]. apply String.eqb_eq in Hemail.
  destruct (verify_password (UserLogin.password user) (User.hashed_password u)) eqn:Ev;
    simpl; [|discriminate].
  intros Hret. inversion Hret; subst response. clear Hret. simpl.
  assert (Hauth : get_current_user verify_access_token
                    (create_access_token [("sub", User.username u)]) w
                  = (Return u, w)).
  { unfold get_current_user. destruct (Hcodec u Hin) as (claims & -> & ->). run.
    destruct (find (fun u0 => String.eqb (User.username u0) (User.username u))
                   (users (db w))) as [row|] eqn:Erow.
    - apply find_some in Erow. destruct Erow as [Hrow Hname].
      apply String.eqb_eq in Hname.
      rewrite (unique_by User.username (users (db w)) row u Hnd Hrow Hin Hname).
      reflexivity.
    - exfalso. apply (find_none _ _ Erow) in Hin. simpl in Hin.
      rewrite String.eqb_refl in Hin. discriminate. }
  exists u. repeat split; try assumption; try reflexivity.
  unfold protected, bind. rewrite Hauth. reflexivity.
Qed.

Lemma login_then_authenticate_witness :
  exists u,
    In u (users (db sample_world))
    /\ get_current_user sample_access_decode "access-alice" sample_world
       = (Return u, sample_world)
    /\ protected sample_access_decode "access-alice" protected_route sample_world
       = (Return "Hello, alice! You have access to this protected route.", sample_world).
Proof.
  assert (Hcodec : forall u, In u (users (db sample_world)) ->
                     exists claims,
                       sample_access_decode (sample_encode [("sub", User.username u)])
                       = Some claims
                       /\ dict_get "sub" claims = Some (User.username u))
    by (intros u [<-|[<-|[]]]; eexists; split; reflexivity).
  assert (Hnd : NoDup (map User.username (users (db sample_world))))
    by (repeat constructor; simpl; intuition discriminate).
  destruct (login_then_authenticate sample_verify sample_encode sample_encode
              sample_access_decode (UserLogin.mk "" "a@x.com" "pw") sample_world
              (LoginResponse.mk "access-alice" "access-alice" "bearer" "alice" 1)
              Hcodec Hnd eq_refl)
    as (u & Hin & _ & _ & Hname & _ & Hauth & Hroute).
  exists u. simpl in Hname. rewrite <- Hname in Hroute.
  split; [exact Hin|]. split; [exact Hauth | exact Hroute].
Defined.

(** X15.  The two user logins accept the same credentials: for one email
    and password, [user_login] and [login_for_oauth_form] (which reads the
    form's username as the email) both succeed with the same access token
    and username, or both fail; a failure is the same 400 "Invalid
    credentials" whether the email is unknown or the password wrong, and
    neither writes. *)
Theorem logins_agree
  (verify_password : string -> string -> bool)
  (create_access_token create_refresh_token : payload -> string)
  (login_name email password : string) (w : World) :
  match user_login verify_password create_access_token create_refresh_token
          (UserLogin.mk login_name email password) w,
        login_for_oauth_form verify_password create_access_token email password w
  with
  | (Return r, w1), (Return f, w2) =>
      w1 = w /\ w2 = w
      /\ LoginResponse.access_token r = FormLoginResponse.access_token f
      /\ LoginResponse.username r = FormLoginResponse.username f
      /\ exists u,
           find (fun u => String.eqb (User.email u) email) (users (db w)) = Some u
           /\ verify_password password (User.hashed_password u) = true
           /\ LoginResponse.access_token r
              = create_access_token [("sub", User.username u)]
  | (Raise e1, w1), (Raise e2, w2) =>
      w1 = w /\ w2 = w
      /\ e1 = HTTPException 400 "Invalid credentials"
      /\ e2 = HTTPException 400 "Invalid credentials"
      /\ match find (fun u => String.eqb (User.email u) email) (users (db w)) with
         | Some u => verify_password password (User.hashed_password u) = false
         | None => True
         end
  | _, _ => False
  end.
Proof.
  unfold user_login, login_for_oauth_form. run.
  destruct (find (fun u => String.eqb (User.email u) email) (users (db w))) as [u|];
    [|repeat split].
  destruct (verify_password password (User.hashed_password u)) eqn:Ev; simpl.
  - repeat split. exists u. repeat split. exact Ev.
  - repeat split.
Qed.

(** ** The admin handlers *)

(** X16.  The admin [register] checks the master key before anything else:
    with a wrong key it answers 400 and leaves the Admin table, even for a
    free username.  With the right key it refuses a taken username with 400
    and otherwise appends the admin under a fresh id, without looking at
    the email.  Unique ids and usernames of the table are kept. *)
Theorem admin_register_outcomes
  (hash_password : string -> string) (MASTER_KEY : string)
  (user : AdminCreate.t) (admins : list Admin.t) :
  (AdminCreate.master_key user <> MASTER_KEY ->
   admin_register hash_password MASTER_KEY user admins
   = (Raise (HTTPException 400 "Incorrect master key"), admins))
  /\ (AdminCreate.master_key user = MASTER_KEY ->
      (exists a, In a admins /\ Admin.username a = AdminCreate.username user) ->
      admin_register hash_password MASTER_KEY user admins
      = (Raise (HTTPException 400 "Username already registered"), admins))
  /\ (AdminCreate.master_key user = MASTER_KEY ->
      (forall a, In a admins -> Admin.username a <> AdminCreate.username user) ->
      admin_register hash_password MASTER_KEY user admins
      = (Return (AdminRegisterResponse.mk (next_id (map Admin.id admins))
                   (AdminCreate.username user) "Registered successfully!"),
         admins ++ [Admin.mk (next_id (map Admin.id admins))
                             (AdminCreate.username user) (AdminCreate.email user)
                             (hash_password (AdminCreate.password user))]))
  /\ (NoDup (map Admin.id admins) -> NoDup (map Admin.username admins) ->
      NoDup (map Admin.id (snd (admin_register hash_password MASTER_KEY user admins)))
      /\ NoDup (map Admin.username
                    (snd (admin_register hash_password MASTER_KEY user admins)))).
Proof.
  unfold admin_register.
  destruct (String.eqb_spec (AdminCreate.master_key user) MASTER_KEY) as [Hkey|Hkey];
    simpl.
  - destruct (find (fun a => String.eqb (Admin.username a) (AdminCreate.username user))
                   admins) as [a|] eqn:Ef.
    + apply find_some in Ef. destruct Ef as [Hin Hname]. apply String.eqb_eq in Hname.
      split; [contradiction|]. split; [reflexivity|]. split.
      * intros _ Hfree. exfalso. exact (Hfree a Hin Hname).
      * simpl. auto.
    + split; [contradiction|]. split; [|split].
      * intros _ (a & Hin & Hname). exfalso.
        apply (find_none _ _ Ef) in Hin. simpl in Hin.
        rewrite Hname, String.eqb_refl in Hin. discriminate.
      * reflexivity.
      * intros Hids Hnames. simpl. rewrite !map_app. simpl.
        split; apply NoDup_snoc; try assumption; [apply next_id_not_in|].
        intros Hin. apply in_map_iff in Hin. destruct Hin as (a & Hname & Hin).
        apply (find_none _ _ Ef) in Hin. simpl in Hin.
        rewrite Hname, String.eqb_refl in Hin. discriminate.
  - split; [reflexivity|]. split; [contradiction|]. split; [contradiction|].
    simpl. auto.
Qed.

Lemma admin_register_outcomes_witness :
  admin_register sample_hash "master" (AdminCreate.mk "eve" "e@x.com" "pw" "guess") [root]
  = (Raise (HTTPException 400 "Incorrect master key"), [root])
  /\ admin_register sample_hash "master"
       (AdminCreate.mk "root" "r@x.com" "pw" "master") [root]
     = (Raise (HTTPException 400 "Username already registered"), [root])
  /\ snd (admin_register sample_hash "master"
            (AdminCreate.mk "alice" "ops@x.com" "pw" "master") [root])
     = [root; Admin.mk 2 "alice" "ops@x.com" "hash-of-pw"].
Proof.
  split; [|split].
  - apply (admin_register_outcomes sample_hash "master"
             (AdminCreate.mk "eve" "e@x.com" "pw" "guess") [root]).
    discriminate.
  - apply (admin_register_outcomes sample_hash "master"
             (AdminCreate.mk "root" "r@x.com" "pw" "master") [root]);
      [reflexivity|].
    exists root. split; [left|]; reflexivity.
  - destruct (admin_register_outcomes sample_hash "master"
                (AdminCreate.mk "alice" "ops@x.com" "pw" "master") [root])
      as (_ & _ & Hok & _).
    rewrite Hok; [reflexivity | reflexivity |].
    intros a [<-|[]]. discriminate.
Defined.

(** X17.  A registered admin can log in: after an accepted admin
    registration, the admin [login] with the registered username and
    password, on a password service that verifies what it hashed, answers
    with an access token for that username. *)
Theorem admin_register_then_login
  (verify_password : string -> string -> bool)
  (hash_password : string -> string)
  (create_access_token : payload -> string) (MASTER_KEY : string)
  (user : AdminCreate.t) (login_email : string) (admins : list Admin.t) :
  verify_password (AdminCreate.password user) (hash_password (AdminCreate.password user))
  = true ->
  AdminCreate.master_key user = MASTER_KEY ->
  (forall a, In a admins -> Admin.username a <> AdminCreate.username user) ->
  admin_login verify_password create_access_token
    (UserLogin.mk (AdminCreate.username user) login_email (AdminCreate.password user))
    (snd (admin_register hash_password MASTER_KEY user admins))
  = Return (RefreshResponse.mk
              (create_access_token [("sub", AdminCreate.username user)]) "bearer").
Proof.
  intros Hverify Hkey Hfree. unfold admin_register, admin_login.
  rewrite Hkey, String.eqb_refl. simpl.
  replace (find _ admins) with (@None Admin.t)
    by (symmetry; apply find_none_iff; intros a Ha;
        apply String.eqb_neq, (Hfree a Ha)).
  simpl. rewrite find_snoc.
  replace (find _ admins) with (@None Admin.t)
    by (symmetry; apply find_none_iff; intros a Ha;
        apply String.eqb_neq, (Hfree a Ha)).
  simpl. rewrite String.eqb_refl. simpl. rewrite Hverify. reflexivity.
Qed.

Lemma admin_register_then_login_witness :
  admin_login sample_verify sample_encode (UserLogin.mk "alice" "" "pw")
    (snd (admin_register sample_hash "master"
            (AdminCreate.mk "alice" "ops@x.com" "pw" "master") [root]))
  = Return (RefreshResponse.mk "access-alice" "bearer").
Proof.
  apply (admin_register_then_login sample_verify sample_hash sample_encode "master"
           (AdminCreate.mk "alice" "ops@x.com" "pw" "master") "" [root]).
  - reflexivity.
  - reflexivity.
  - intros a [<-|[]]. discriminate.
Defined.

(** X18.  Access tokens carry no role.  A token that [get_current_user]
    accepts for a user is accepted by [get_admin_user] as well whenever an
    Admin row has that username, and then opens the admin deletion route:
    the request runs [delete_user]. *)
Theorem user_token_opens_admin_routes
  (verify_access_token : string -> option payload)
  (token : string) (w : World) (u : User.t) (admins : list Admin.t) (a : Admin.t) :
  fst (get_current_user verify_access_token token w) = Return u ->
  In a admins ->
  Admin.username a = User.username u ->
  (exists a',
     get_admin_user verify_access_token token admins = Return a'
     /\ Admin.username a' = User.username u)
  /\ (forall user_id w0,
        admin_delete_user verify_access_token token admins user_id w0
        = delete_user user_id w0).
Proof.
  intros Hauth Hin Hname.
  assert (Hadmin : exists a',
             get_admin_user verify_access_token token admins = Return a'
             /\ Admin.username a' = User.username u).
  { unfold get_current_user in Hauth. unfold get_admin_user.
    destruct (verify_access_token token) as [claims|]; [|discriminate].
    destruct (dict_get "sub" claims) as [name|]; [|discriminate].
    revert Hauth. run.
    destruct (find (fun u0 => String.eqb (User.username u0) name) (users (db w)))
      as [row|] eqn:Erow; [|discriminate].
    intros Hret. inversion Hret; subst row. clear Hret.
    apply find_some in Erow. destruct Erow as [_ Hu]. apply String.eqb_eq in Hu.
    destruct (find (fun a0 => String.eqb (Admin.username a0) name) admins)
      as [a'|] eqn:Ea.
    - exists a'. split; [reflexivity|].
      apply find_some in Ea. destruct Ea as [_ Ha']. apply String.eqb_eq in Ha'.
      congruence.
    - exfalso. apply (find_none _ _ Ea) in Hin. simpl in Hin.
      rewrite Hname, Hu, String.eqb_refl in Hin. discriminate. }
  split; [exact Hadmin|].
  intros user_id w0. unfold admin_delete_user.
  destruct Hadmin as (a' & -> & _). reflexivity.
Qed.

Lemma user_token_opens_admin_routes_witness :
  (exists a',
     get_admin_user sample_access_decode "access-alice"
       [root; Admin.mk 2 "alice" "ops@x.com" "hash-of-pw"] = Return a')
  /\ admin_delete_user sample_access_decode "access-alice"
       [root; Admin.mk 2 "alice" "ops@x.com" "hash-of-pw"] 2 sample_world
     = delete_user 2 sample_world.
Proof.
  destruct (user_token_opens_admin_routes sample_access_decode "access-alice"
              sample_world alice [root; Admin.mk 2 "alice" "ops@x.com" "hash-of-pw"]
              (Admin.mk 2 "alice" "ops@x.com" "hash-of-pw") eq_refl
              (or_intror (or_introl eq_refl)) eq_refl)
    as [(a' & Ha & _) Hroute].
  split; [exists a'; exact Ha | apply Hroute].
Defined.

(** X19.  The admin deletion route writes nothing unless the token names
    an admin: a rejected token or a token without subject is answered 401,
    and a verified token whose subject is no Admin username, such as a
    plain user's, is answered 403; the state is left as it was. *)
Theorem admin_route_refuses
  (verify_access_token : string -> option payload)
  (token : string) (admins : list Admin.t) (user_id : Z) (w : World) :
  (verify_access_token token = None
   \/ (exists claims, verify_access_token token = Some claims
                      /\ dict_get "sub" claims = None) ->
   exists detail,
     admin_delete_user verify_access_token token admins user_id w
     = (Raise (HTTPException 401 detail), w))
  /\ (forall claims name,
        verify_access_token token = Some claims ->
        dict_get "sub" claims = Some name ->
        (forall a, In a admins -> Admin.username a <> name) ->
        admin_delete_user verify_access_token token admins user_id w
        = (Raise (HTTPException 403 "Not authorized to access this resource"), w)).
Proof.
  unfold admin_delete_user, get_admin_user. split.
  - intros [->|(claims & -> & ->)]; eexists; reflexivity.
  - intros claims name -> -> Hnone.
    replace (find _ admins) with (@None Admin.t); [reflexivity|].
    symmetry. apply find_none_iff. intros a Ha. apply String.eqb_neq, Hnone, Ha.
Qed.

Lemma admin_route_refuses_witness :
  admin_delete_user sample_access_decode "access-alice" [root] 2 sample_world
  = (Raise (HTTPException 403 "Not authorized to access this resource"), sample_world)
  /\ exists detail,
       admin_delete_user sample_access_decode "forged" [root] 2 sample_world
       = (Raise (HTTPException 401 detail), sample_world).
Proof.
  destruct (admin_route_refuses sample_access_decode "access-alice" [root] 2 sample_world)
    as [_ H403].
  destruct (admin_route_refuses sample_access_decode "forged" [root] 2 sample_world)
    as [H401 _].
  split.
  - apply (H403 [("sub", "alice")] "alice"); try reflexivity.
    intros a [<-|[]]. discriminate.
  - apply H401. left. reflexivity.
Defined.

(** ** What a deletion removes and what it leaves *)






Lemma delete_rows_fold {A} (key : A -> Z) (victims table : list A) :
  fold_left (fun l x => delete_rows key [x] l) victims table
  = delete_rows key victims table.
Proof.
  revert table. induction victims as [|v vs IH]; intros table; simpl.
  - unfold delete_rows. simpl. symmetry. apply filter_all. reflexivity.
  - rewrite IH. unfold delete_rows. rewrite filter_filter.
    apply filter_ext. intros r. simpl. rewrite orb_false_r, negb_orb. reflexivity.
Qed.


Lemma delete_user_result (user_id : Z) (w : World) (target_user : User.t) :
  find (fun u => User.id u =? user_id) (users (db w)) = Some target_user ->
  delete_user user_id w
  = (Return ("Deleted user '" ++ User.username target_user ++ "' successfully")%string,
     mkWorld (delete_User_cascade target_user (children_deleted user_id (db w)))
             (sent w) (scheduled w)).
Proof.
  intros Hfind. unfold delete_user. unfold bind at 1. unfold query at 1.
  rewrite Hfind.
  unfold bind. rewrite guarded_for_each_commit. cbn [db sent scheduled].
  rewrite guarded_for_each_commit. cbn [db sent scheduled].
  rewrite guarded_for_each_commit. cbn [db sent scheduled].
  rewrite guarded_for_each_commit. cbn [db sent scheduled].
  unfold commit, ret. cbn [db sent scheduled]. do 3 f_equal.
  unfold children_deleted.
  assert (He : forall (vs : list Expense.t) d,
             fold_left (fun d x => with_expenses (delete_rows Expense.id [x]) d) vs d
             = with_expenses (delete_rows Expense.id vs) d).
  { intros vs d. unfold with_expenses at 2. rewrite <- delete_rows_fold.
    revert d. induction vs as [|v vs IH]; intros d; simpl; [destruct d; reflexivity|].
    rewrite IH. reflexivity. }
  assert (Hb : forall (vs : list Budget.t) d,
             fold_left (fun d x => with_budgets (delete_rows Budget.id [x]) d) vs d
             = with_budgets (delete_rows Budget.id vs) d).
  { intros vs d. unfold with_budgets at 2. rewrite <- delete_rows_fold.
    revert d. induction vs as [|v vs IH]; intros d; simpl; [destruct d; reflexivity|].
    rewrite IH. reflexivity. }
  assert (Ha : forall (vs : list Alert.t) d,
             fold_left (fun d x => with_alerts (delete_rows Alert.id [x]) d) vs d
             = with_alerts (delete_rows Alert.id vs) d).
  { intros vs d. unfold with_alerts at 2. rewrite <- delete_rows_fold.
    revert d. induction vs as [|v vs IH]; intros d; simpl; [destruct d; reflexivity|].
    rewrite IH. reflexivity. }
  assert (Hc : forall (vs : list Category.t) d,
             fold_left (fun d x => with_categories (delete_rows Category.id [x]) d) vs d
             = with_categories (delete_rows Category.id vs) d).
  { intros vs d. unfold with_categories at 2. rewrite <- delete_rows_fold.
    revert d. induction vs as [|v vs IH]; intros d; simpl; [destruct d; reflexivity|].
    rewrite IH. reflexivity. }
  rewrite He, Hb, Ha, Hc. reflexivity.
Qed.


Lemma groups_of_key_deleted (k : Z) (d : DB) :
  groups (fold_left (fun d g => delete_Group g d)
            (filter (fun g => Group.id g =? k) (groups d)) d)
  = filter (fun g => negb (Group.id g =? k)) (groups d).
Proof.
  assert (Hfold : forall (vs : list Group.t) d0,
             groups (fold_left (fun d g => delete_Group g d) vs d0)
             = delete_rows Group.id vs (groups d0)).
  { intros vs d0. rewrite <- delete_rows_fold.
    revert d0. induction vs as [|v vs IH]; intros d0; simpl; [reflexivity|].
    rewrite IH. reflexivity. }
  rewrite Hfold.
  unfold delete_rows. apply filter_ext_in. intros g Hg. f_equal.
  destruct (Z.eqb_spec (Group.id g) k) as [Heq|Hne].
  - apply existsb_exists. exists g. split; [|apply Z.eqb_refl].
    apply filter_In. split; [exact Hg | apply Z.eqb_eq, Heq].
  - destruct (existsb _ _) eqn:E; [|reflexivity].
    apply existsb_exists in E. destruct E as (v & Hv & Hkey).
    apply filter_In in Hv. destruct Hv as [_ Hvk].
    apply Z.eqb_eq in Hvk. apply Z.eqb_eq in Hkey. congruence.
Qed.

Lemma groups_loop_result (members : list GroupMember.t) (w : World) :
  exists d,
    for_each members
      (fun group_member =>
         d <- query ;;
         for_each
           (filter (fun g => Group.id g =? GroupMember.id group_member) (groups d))
           (fun group => commit (delete_Group group))) w
    = (Return tt, mkWorld d (sent w) (scheduled w))
    /\ users d = users (db w)
    /\ groups d
       = filter (fun g => negb (existsb (fun m => Group.id g =? GroupMember.id m) members))
                (groups (db w)).
Proof.
  revert w. induction members as [|m members IH]; intros w.
  - exists (db w). split; [destruct w; reflexivity|]. split; [reflexivity|].
    symmetry. apply filter_all. reflexivity.
  - cbn [for_each]. unfold bind at 1. unfold bind at 1. unfold query at 1.
    rewrite for_each_commit.
    pose proof (same_but_groups_fold
                  (filter (fun g => Group.id g =? GroupMember.id m) (groups (db w)))
                  (db w)) as (Husers & _).
    pose proof (groups_of_key_deleted (GroupMember.id m) (db w)) as Hstep.
    match goal with
    | |- context [mkWorld ?d0 (sent w) (scheduled w)] =>
        destruct (IH (mkWorld d0 (sent w) (scheduled w))) as (d & Hrun & Hu & Hg)
    end.
    exists d. split; [exact Hrun|]. cbn [db] in Hu, Hg.
    split; [congruence|].
    rewrite Hg, Hstep, filter_filter. apply filter_ext. intros g. simpl.
    rewrite negb_orb. reflexivity.
Qed.

Lemma delete_account_result (user : User.t) (w : World) :
  In user (users (db w)) ->
  users_unique (db w) ->
  exists d,
    users d = users (db w)
    /\ groups d
       = filter (fun g => negb (existsb (fun m => Group.id g =? GroupMember.id m)
                                        (admin_memberships (User.id user) (db w))))
                (groups (db w))
    /\ delete_account user w
       = (Return ("Deleted account of '" ++ User.username user
                    ++ "' successfully")%string,
          mkWorld (delete_User_cascade user d) (sent w) (scheduled w)).
Proof.
  intros Hin (Hids & Hnames & _). unfold delete_account.
  unfold bind at 1. unfold query at 1. cbv beta iota zeta.
  fold (admin_memberships (User.id user) (db w)).
  set (members := admin_memberships (User.id user) (db w)).
  assert (Hloop : exists d,
    (if nonempty members
     then for_each members
            (fun group_member =>
               d <- query ;;
               for_each
                 (filter (fun g => Group.id g =? GroupMember.id group_member) (groups d))
                 (fun group => commit (delete_Group group)))
     else ret tt) w
    = (Return tt, mkWorld d (sent w) (scheduled w))
    /\ users d = users (db w)
    /\ groups d
       = filter (fun g => negb (existsb (fun m => Group.id g =? GroupMember.id m) members))
                (groups (db w))).
  { destruct members as [|m ms] eqn:E.
    - exact (groups_loop_result [] w).
    - cbn [nonempty]. apply groups_loop_result. }
  destruct Hloop as (d & Hloop & Husers & Hgroups).
  exists d. split; [exact Husers|]. split; [exact Hgroups|].
  unfold bind at 1. rewrite Hloop. unfold bind at 1. unfold query at 1.
  cbn [db sent scheduled]. rewrite Husers.
  destruct (find (fun u => String.eqb (User.username u) (User.username user)
                           && String.eqb (User.email u) (User.email user))
                 (users (db w))) as [row|] eqn:Erow.
  - apply find_some in Erow. destruct Erow as [Hrow Hmatch].
    apply andb_true_iff in Hmatch. destruct Hmatch as [Hname _].
    apply String.eqb_eq in Hname.
    assert (row = user) by (apply (unique_by User.username (users (db w))); assumption).
    subst row.
    destruct (find (fun u => User.id u =? User.id user) (users (db w)))
      as [target_user|] eqn:Etarget.
    + apply find_some in Etarget. destruct Etarget as [Ht Hid]. apply Z.eqb_eq in Hid.
      assert (target_user = user)
        by (apply (unique_by User.id (users (db w))); assumption).
      subst target_user. reflexivity.
    + exfalso. apply (find_none _ _ Etarget) in Hin. simpl in Hin.
      rewrite Z.eqb_refl in Hin. discriminate.
  - exfalso. apply (find_none _ _ Erow) in Hin. simpl in Hin.
    rewrite !String.eqb_refl in Hin. discriminate.
Qed.

(** X20.  What [delete_account] does to the Group table, for the
    authenticated user of a table with unique columns: a group is deleted
    exactly when its id equals the primary key of one of the user's "admin"
    membership rows; the group such a row points to ([group_id]) is not
    looked at.  Every other group stays. *)
Theorem delete_account_groups (w : World) (user : User.t) :
  In user (users (db w)) ->
  users_unique (db w) ->
  let w' := snd (delete_account user w) in
  groups (db w')
  = filter (fun g => negb (existsb (fun m => Group.id g =? GroupMember.id m)
                                   (admin_memberships (User.id user) (db w))))
           (groups (db w))
  /\ (forall g,
        In g (groups (db w')) <->
        In g (groups (db w))
        /\ forall m, In m (group_members (db w)) ->
                     GroupMember.user_id m = User.id user ->
                     GroupMember.role m = "admin" ->
                     Group.id g <> GroupMember.id m).
Proof.
  intros Hin Huniq. cbv zeta.
  destruct (delete_account_result user w Hin Huniq) as (d & _ & Hgroups & ->).
  cbn [snd db]. change (groups (delete_User_cascade user d)) with (groups d).
  rewrite Hgroups. split; [reflexivity|].
  intros g. rewrite filter_In. split.
  - intros [Hg Hkeep]. split; [exact Hg|].
    intros m Hm Hu Hr Heq. apply negb_true_iff in Hkeep.
    assert (Hex : existsb (fun m0 => Group.id g =? GroupMember.id m0)
                          (admin_memberships (User.id user) (db w)) = true).
    { apply existsb_exists. exists m. split; [|apply Z.eqb_eq, Heq].
      apply filter_In. split; [exact Hm|].
      rewrite Hu, Hr, Z.eqb_refl. reflexivity. }
    congruence.
  - intros [Hg Hnone]. split; [exact Hg|].
    apply negb_true_iff. destruct (existsb _ _) eqn:E; [|reflexivity].
    exfalso. apply existsb_exists in E. destruct E as (m & Hm & Heq).
    apply filter_In in Hm. destruct Hm as [Hm Hsel].
    apply andb_true_iff in Hsel. destruct Hsel as [Hu Hr].
    apply Z.eqb_eq in Hu. apply String.eqb_eq in Hr. apply Z.eqb_eq in Heq.
    exact (Hnone m Hm Hu Hr Heq).
Qed.

Lemma shared_users_unique : users_unique shared_db.
Proof.
  unfold users_unique. repeat split; repeat constructor; simpl; intuition discriminate.
Qed.

Lemma delete_account_groups_witness :
  groups (db (snd (delete_account alice shared_world))) = [flat].
Proof.
  destruct (delete_account_groups shared_world alice (or_introl eq_refl)
              shared_users_unique) as [Hgroups _].
  rewrite Hgroups. reflexivity.
Defined.




(** X22.  A deleted user's credentials are dead.  In the state either
    deletion leaves, with unique columns before it, every access token
    whose subject is the deleted username is refused with 401 and a login
    with the deleted email is refused with 400, whatever the password
    service answers. *)
Theorem deleted_user_cannot_return
  (verify_password : string -> string -> bool)
  (create_access_token create_refresh_token : payload -> string)
  (verify_access_token : string -> option payload)
  (w : World) (user : User.t) (token login_name password : string)
  (claims : payload) :
  In user (users (db w)) ->
  users_unique (db w) ->
  verify_access_token token = Some claims ->
  dict_get "sub" claims = Some (User.username user) ->
  forall w',
    w' = snd (delete_account user w) \/ w' = snd (delete_user (User.id user) w) ->
    get_current_user verify_access_token token w'
    = (Raise (HTTPException 401 "Could not validate credentials"), w')
    /\ user_login verify_password create_access_token create_refresh_token
         (UserLogin.mk login_name (User.email user) password) w'
       = (Raise (HTTPException 400 "Invalid credentials"), w').
Proof.
  intros Hin Huniq Htoken Hsub w' Hw'.
  assert (Husers : users (db w')
                   = filter (fun u => negb (User.id u =? User.id user)) (users (db w))).
  { destruct Hw' as [->| ->].
    - destruct (delete_account_result user w Hin Huniq) as (d & Hkept & _ & ->).
      cbn [snd db]. unfold delete_User_cascade. cbn [users].
      rewrite delete_one, Hkept. reflexivity.
    - destruct (find (fun u => User.id u =? User.id user) (users (db w)))
        as [target_user|] eqn:Etarget.
      + rewrite (delete_user_result _ _ _ Etarget). cbn [snd db].
        apply find_some in Etarget. destruct Etarget as [_ Hid]. apply Z.eqb_eq in Hid.
        unfold delete_User_cascade. cbn [users]. rewrite delete_one, Hid. reflexivity.
      + exfalso. apply (find_none _ _ Etarget) in Hin. simpl in Hin.
        rewrite Z.eqb_refl in Hin. discriminate. }
  destruct Huniq as (Hids & Hnames & Hemails).
  assert (Hgone : forall u, In u (users (db w')) -> In u (users (db w)) /\ u <> user).
  { intros u Hu. rewrite Husers in Hu. apply filter_In in Hu. destruct Hu as [Hu Hne].
    split; [exact Hu|]. intros ->. rewrite Z.eqb_refl in Hne. discriminate. }
  split.
  - unfold get_current_user. rewrite Htoken, Hsub. run.
    replace (find _ (users (db w'))) with (@None User.t); [reflexivity|].
    symmetry. apply find_none_iff. intros u Hu. destruct (Hgone u Hu) as [Hold Hne].
    apply String.eqb_neq. intros Heq. apply Hne.
    apply (unique_by User.username (users (db w))); assumption.
  - unfold user_login. run.
    replace (find _ (users (db w'))) with (@None User.t); [reflexivity|].
    symmetry. apply find_none_iff. intros u Hu. destruct (Hgone u Hu) as [Hold Hne].
    apply String.eqb_neq. intros Heq. apply Hne.
    apply (unique_by User.email (users (db w))); assumption.
Qed.

Lemma deleted_user_cannot_return_witness :
  fst (get_current_user sample_access_decode "access-alice"
         (snd (delete_account alice shared_world)))
  = Raise (HTTPException 401 "Could not validate credentials")
  /\ fst (user_login sample_verify sample_encode sample_encode
            (UserLogin.mk "" "a@x.com" "pw") (snd (delete_user 1 shared_world)))
     = Raise (HTTPException 400 "Invalid credentials").
Proof.
  split.
  - destruct (deleted_user_cannot_return sample_verify sample_encode sample_encode
                sample_access_decode shared_world alice "access-alice" "" "pw"
                [("sub", "alice")] (or_introl eq_refl) shared_users_unique
                eq_refl eq_refl (snd (delete_account alice shared_world))
                (or_introl eq_refl)) as [Hauth _].
    exact (f_equal fst Hauth).
  - destruct (deleted_user_cannot_return sample_verify sample_encode sample_encode
                sample_access_decode shared_world alice "access-alice" "" "pw"
                [("sub", "alice")] (or_introl eq_refl) shared_users_unique
                eq_refl eq_refl (snd (delete_user 1 shared_world))
                (or_intror eq_refl)) as [_ Hlogin].
    exact (f_equal fst Hlogin).
Defined.

(** ** More on what the evaluators read *)

(** X23.  The threshold check reads the user's first alert only.  When the
    user already has an alert, an accepted [create_alert] appends a row the
    evaluation never looks at: [threshold_message] answers after it what it
    answered before, so the check the handler schedules reports against
    the old threshold. *)
Theorem create_alert_keeps_evaluation (str format_2f : amount -> string)
  (w : World) (current_user : User.t) (alert_data : AlertCreate.t) (first : Alert.t) :
  find (fun a => Alert.user_id a =? User.id current_user) (alerts (db w)) = Some first ->
  let w1 := snd (create_alert alert_data current_user w) in
  fst (threshold_message str format_2f (User.id current_user) w1)
  = fst (threshold_message str format_2f (User.id current_user) w)
  /\ find (fun a => Alert.user_id a =? User.id current_user) (alerts (db w1))
     = Some first.
Proof.
  intros Hfirst. cbv zeta.
  destruct (create_alert_cases w current_user alert_data) as [[_ [detail ->]]|[_ ->]].
  - split; [reflexivity | exact Hfirst].
  - cbn [snd]. unfold threshold_message. run.
    rewrite find_snoc, Hfirst. simpl.
    destruct (truthy _); split; reflexivity.
Qed.

Lemma create_alert_keeps_evaluation_witness :
  fst (threshold_message sample_str sample_2f 1
         (snd (create_alert (AlertCreate.mk 250) alice sample_world)))
  = Return (Some "Your alert threshold of 100.0 has been exceeded by 70.00").
Proof.
  destruct (create_alert_keeps_evaluation sample_str sample_2f sample_world alice
              (AlertCreate.mk 250) alice_alert eq_refl) as [Hsame _].
  exact (eq_trans Hsame eq_refl).
Defined.

(** X26.  The budget is checked on floats: a tea at 0.1 and a bun at 0.2
    sum to 0.30000000000000004, so against a limit of 0.3 the remaining
    amount is negative and [check_budget] stores and pushes the
    notification, whatever the printing of floats. *)
Theorem check_budget_rounds_as_floats (str : amount -> string) :
  sum (map Expense.amount tea_and_bun) = 0.30000000000000004%float
  /\ check_budget str 1 small_budget_world
     = (Return tt,
        notified small_budget_world 1
          (budget_text str 0.3 (-5.5511151231257827e-17)%float)).
Proof.
  split; reflexivity.
Qed.

(** X27.  The threshold is checked on floats: with the same two expenses
    and an alert at 0.3 the overage is not zero, and [check_thresholds]
    stores and pushes a notification whose overage prints, with two
    decimals, as whatever [format_2f] makes of 5.5511151231257827e-17. *)
Theorem check_thresholds_rounds_as_floats (str format_2f : amount -> string) :
  check_thresholds str format_2f 1 small_alert_world
  = (Return tt,
     notified small_alert_world 1
       (threshold_text str format_2f 0.3 5.5511151231257827e-17%float)).
Proof.
  reflexivity.
Qed.
